(** * react-intl [utils.ts]: a shallow embedding and its properties

    The development follows [packages/react-intl/src/utils.ts]: property
    filtering ([filterProps]), the context assertion
    ([invariantIntlContext]), the default error handler, the cache container
    and the default configuration ([DEFAULT_INTL_CONFIG]), the cache
    container ([createIntlCache]), the adapter from a store object to a
    memoization cache ([createFastMemoizeCache]), the memoized formatter
    constructors ([createFormatters]) and the named-format lookup
    ([getNamedFormat]).  [assignUniqueKeysToParts] is left out: all it does
    is done by [React.Children.toArray].

    JavaScript values are modelled by the inductive type [value].  The
    objects that have an identity and are mutated in place (the memoization
    stores) live in an explicit heap, and the formatter instances carry the
    identity the platform gave them; both are threaded through a monad [M]
    of state and exceptions.

    The file has three parts: the model, the vocabulary in which the
    properties are stated, and the lemmas and theorems. *)

From Stdlib Require Import ZArith Ascii String List Lia DecimalString DecimalPos DecimalZ.
From stdpp Require Import base tactics option list strings pretty gmap fin_maps.

Set Default Proof Using "Type".
Set Warnings "-register-all".
Local Open Scope string_scope.
Local Open Scope list_scope.

(* ===================================================================== *)
(** * Part I: the model *)
(* ===================================================================== *)

(** ** JavaScript values *)

(** Numbers.  [Int z] stands for the integer-valued double [z] (a safe
    integer); the special values are separate constructors because
    truthiness and JSON serialization treat them apart.  Fractional doubles
    are not needed by any function of the module and are left out. *)
Inductive jsnumber : Type :=
| NaN
| PosInfinity
| NegInfinity
| NegZero
| Int (z : Z).

(** The seven kinds of formatter, one per slot of the cache container. *)
Inductive Kind : Type :=
| DateTime | Number | Message | RelativeTime | PluralRules | ListKind | DisplayNames.

#[global] Instance Kind_eq_dec : EqDecision Kind.
Proof. solve_decision. Defined.

Definition kinds : list Kind :=
  [DateTime; Number; Message; RelativeTime; PluralRules; ListKind; DisplayNames].

(** Addresses of store objects. *)
Definition loc := positive.

(** Function values.  [MemoizedCtor k store] is the memoized constructor of
    formatter kind [k] whose cache is the store object at address [store];
    [UserFn name] is any other function handed in by a caller; [Builtin name]
    is a function of the JavaScript library, named by its path. *)
Inductive func : Type :=
| MemoizedCtor (k : Kind) (store : loc)
| UserFn (name : string)
| Builtin (name : string).

(** Values.  A plain object is the list of its own enumerable string-keyed
    properties in property order (keys are unique in a well-formed object);
    the order is kept because JSON serialization depends on it.  Its
    prototype is [Object.prototype], whose properties it inherits (see
    [Object_prototype] below). *)
Inductive value : Type :=
| VUndefined
| VNull
| VBool (b : bool)
| VNum (n : jsnumber)
| VStr (s : string)
| VArr (elems : list value)
| VObj (props : list (string * value))
| VFun (f : func).

Abbreviation object := (list (string * value)).

(** [ToBoolean]: the falsy values are [undefined], [null], [false], [+0],
    [-0], [NaN] and the empty string. *)
Definition truthy (v : value) : bool :=
  match v with
  | VUndefined | VNull => false
  | VBool b => b
  | VNum NaN | VNum NegZero | VNum (Int 0) => false
  | VNum _ => true
  | VStr s => negb (String.eqb s "")
  | VArr _ | VObj _ | VFun _ => true
  end.

(** [a && k(a)] and [v || {}] *)
Definition and_then (v : value) (k : value -> value) : value :=
  if truthy v then k v else v.

Definition or_empty (v : value) : value := if truthy v then v else VObj [].

(** *** Own properties of plain objects *)

(** [obj_lookup name o] is [Some v] when [o] has the own property [name]
    with value [v] (possibly [undefined]) and [None] when it has none. *)
Fixpoint obj_lookup (name : string) (o : object) : option value :=
  match o with
  | [] => None
  | (k, v) :: rest => if String.eqb k name then Some v else obj_lookup name rest
  end.

(** [o.hasOwnProperty(name)] *)
Definition obj_has (name : string) (o : object) : bool :=
  bool_decide (is_Some (obj_lookup name o)).

(** The own property [name] of [o], [undefined] when there is none. *)
Definition obj_get (name : string) (o : object) : value :=
  default VUndefined (obj_lookup name o).

(** [o[name] = v]: overwrite in place when the key exists, append otherwise. *)
Fixpoint obj_set (name : string) (v : value) (o : object) : object :=
  match o with
  | [] => [(name, v)]
  | (k, w) :: rest =>
      if String.eqb k name then (k, v) :: rest else (k, w) :: obj_set name v rest
  end.

Definition obj_keys (o : object) : list string := map fst o.

(** *** Properties inherited from [Object.prototype]

    A plain object inherits the properties of [Object.prototype]: the
    standard ones and those of Annex B of ECMAScript.  All are functions
    but [__proto__], an accessor whose getter gives the prototype of the
    receiver, here [Object.prototype] itself, an object without enumerable
    property of its own. *)
Definition Object_prototype : object :=
  [("constructor", VFun (Builtin "Object"));
   ("__defineGetter__", VFun (Builtin "Object.prototype.__defineGetter__"));
   ("__defineSetter__", VFun (Builtin "Object.prototype.__defineSetter__"));
   ("hasOwnProperty", VFun (Builtin "Object.prototype.hasOwnProperty"));
   ("__lookupGetter__", VFun (Builtin "Object.prototype.__lookupGetter__"));
   ("__lookupSetter__", VFun (Builtin "Object.prototype.__lookupSetter__"));
   ("isPrototypeOf", VFun (Builtin "Object.prototype.isPrototypeOf"));
   ("propertyIsEnumerable", VFun (Builtin "Object.prototype.propertyIsEnumerable"));
   ("toString", VFun (Builtin "Object.prototype.toString"));
   ("valueOf", VFun (Builtin "Object.prototype.valueOf"));
   ("__proto__", VObj []);
   ("toLocaleString", VFun (Builtin "Object.prototype.toLocaleString"))].

(** [name in o] for a plain object [o]: an own or an inherited property. *)
Definition obj_in (name : string) (o : object) : bool :=
  obj_has name o || obj_has name Object_prototype.

(** [o[name]] for a plain object [o]: the own property, else the inherited
    one, else [undefined]. *)
Definition obj_read (name : string) (o : object) : value :=
  match obj_lookup name o with
  | Some v => v
  | None => obj_get name Object_prototype
  end.

(** [o[name] = v] on a plain object [o].  An assignment to [__proto__]
    runs the inherited setter, which leaves the own properties as they are
    (it sets the prototype when [v] is an object or [null]; the prototype of
    the result is then outside this model, and the theorems keep
    [__proto__] out of what is assigned).  The other inherited properties
    are writable data properties: assigning one defines an own property. *)
Definition obj_assign (name : string) (v : value) (o : object) : object :=
  if String.eqb name "__proto__" then o else obj_set name v o.

(** Property read [v[name]] on a value that is not [undefined] or [null].
    Only plain objects are modelled as receivers: a string, a number, an
    array or a function has a prototype of its own, and the theorems below
    read plain objects only. *)
Definition get_prop (v : value) (name : string) : value :=
  match v with
  | VObj o => obj_read name o
  | _ => VUndefined
  end.

(** The own enumerable properties an object spread copies from a value. *)
Definition own_enumerable (v : value) : object :=
  match v with
  | VObj props => props
  | VArr elems => imap (fun i e => (pretty i, e)) elems
  | VStr s => imap (fun i c => (pretty i, VStr (String c ""))) (list_ascii_of_string s)
  | _ => []
  end.

(** [{...target, ...source}] for an object under construction: the copied
    properties are defined one by one.  Properties are kept in the order
    they were first defined (JavaScript lists array-index names first; no
    function of the module depends on the order of the object built
    here). *)
Definition spread (target : object) (source : value) : object :=
  fold_left (fun o kv => obj_set (fst kv) (snd kv) o) (own_enumerable source) target.

(** ** filterProps *)

(** The callback of the [reduce]. *)
Definition filter_step (props defaults : object) (filtered : object) (name : string) :
    object :=
  if obj_in name props then obj_assign name (obj_read name props) filtered
  else if obj_in name defaults then obj_assign name (obj_read name defaults) filtered
  else filtered.

(** [filterProps(props, whitelist, defaults = {})]: a left fold over the
    whitelist that starts from the empty object. *)
Definition filterProps (props : object) (whitelist : list string)
    (defaults : option object) : object :=
  let defaults := default [] defaults in
  fold_left (filter_step props defaults) whitelist [].

(** ** Errors, formatter instances and the world *)

(** Error objects, by the constructor that builds them and the message it is
    given.  [UnsupportedFormatterError] is declared in [./error] and is kept
    abstract: only the message handed to it by this module is recorded.
    [PlatformError] stands for whatever a platform constructor raises
    ([RangeError], [TypeError], ...). *)
Inductive error : Type :=
| Error (message : string)
| UnsupportedFormatterError (message : string)
| PlatformError (name message : string).

(** A formatter instance: an object built by a platform constructor.  Its
    identity is [inst_id]; [inst_args] are the arguments the constructor
    received. *)
Record instance : Type := Instance {
  inst_id : nat;
  inst_kind : Kind;
  inst_args : list value;
}.

(** The mutable world: the heap of memoization stores (each a
    [Record<string, V>] object, addressed by [loc]), the platform's
    allocation counter, the log of platform constructor invocations (oldest
    first), what was written with [console.error], and
    [process.env.NODE_ENV]. *)
Record world : Type := World {
  stores : gmap loc (gmap string instance);
  next_id : nat;
  calls : list (Kind * list value);
  console : list error;
  NODE_ENV : option string;
}.

Definition set_stores (f : gmap loc (gmap string instance) -> gmap loc (gmap string instance))
    (w : world) : world :=
  World (f (stores w)) (next_id w) (calls w) (console w) (NODE_ENV w).

(** The store object at [l]; an address that was never allocated reads as an
    empty object. *)
Definition store_at (w : world) (l : loc) : gmap string instance :=
  default ∅ (stores w !! l).

(** The world after [store[key] = value] on the store object at [l]. *)
Definition write_store (l : loc) (key : string) (value : instance) (w : world) : world :=
  set_stores (fun h => <[l := <[key := value]> (store_at w l)]> h) w.

(** *** The monad of effects: state and exceptions *)

Inductive result (A : Type) : Type :=
| Returned (a : A)
| Thrown (e : error).
Arguments Returned {A} a.
Arguments Thrown {A} e.

Definition M (A : Type) : Type := world -> result A * world.

Definition ret {A} (a : A) : M A := fun w => (Returned a, w).
Definition throw {A} (e : error) : M A := fun w => (Thrown e, w).
Definition bind {A B} (m : M A) (k : A -> M B) : M B :=
  fun w => match m w with
           | (Returned a, w') => k a w'
           | (Thrown e, w') => (Thrown e, w')
           end.
Definition get_world : M world := fun w => (Returned w, w).
Definition modify (f : world -> world) : M unit := fun w => (Returned tt, f w).

Notation "'let*' x := m 'in' k" := (bind m (fun x => k))
  (at level 10, x name, m at level 100, k at level 200).
Notation "m ;;; k" := (bind m (fun _ => k))
  (at level 100, k at level 200, right associativity).

(** ** invariantIntlContext and defaultErrorHandler *)

(** Modelled from the spec: [invariant] is imported from
    [@formatjs/intl-utils], which is not part of the sources at hand.  The
    spec (4.6) has the assertion fail immediately with a descriptive error
    when the condition is absent or falsy; otherwise nothing happens. *)
Definition invariant (condition : value) (message : string) : M unit :=
  if truthy condition then ret tt else throw (Error message).

Definition invariantIntlContext (intl : value) : M unit :=
  invariant intl
    ("[React Intl] Could not find required `intl` object. " +:+
     "<IntlProvider> needs to exist in the component ancestry.").

Definition console_error (e : error) : M unit :=
  modify (fun w => World (stores w) (next_id w) (calls w) (console w ++ [e]) (NODE_ENV w)).

Definition defaultErrorHandler (e : error) : M unit :=
  let* w := get_world in
  if bool_decide (NODE_ENV w = Some "production") then ret tt else console_error e.

(** ** DEFAULT_INTL_CONFIG *)

(** [React.Fragment], the only component the module names. *)
Inductive component : Type := ReactFragment.

Module IntlConfig.
Record t : Type := Make {
  formats : value;
  messages : value;
  timeZone : value;
  textComponent : component;
  defaultLocale : string;
  defaultFormats : value;
  onError : error -> M unit;
}.
End IntlConfig.

Definition DEFAULT_INTL_CONFIG : IntlConfig.t :=
  IntlConfig.Make (VObj []) (VObj []) VUndefined ReactFragment "en" (VObj [])
    defaultErrorHandler.

(** ** getNamedFormat *)

Definition getNamedFormat (formats : value) (type name : string)
    (onError : error -> M unit) : M value :=
  let formatType := and_then formats (fun formats => get_prop formats type) in
  let format := if truthy formatType then get_prop formatType name else VUndefined in
  if truthy format then ret format
  else
    onError (UnsupportedFormatterError ("No " +:+ type +:+ " format named: " +:+ name)) ;;;
    ret VUndefined.

(** ** JSON serialization *)

(** [JSON.stringify] on the modelled values.  Strings are sequences of
    one-byte characters, so the escapes are those of the ASCII range. *)

Definition hex_digit (n : N) : ascii :=
  ascii_of_N (if (n <? 10)%N then 48 + n else 87 + n)%N.

(** One character of [QuoteJSONString]. *)
Definition quote_char (c : ascii) : string :=
  let n := N_of_ascii c in
  if (n =? 34)%N then String "\" (String c "")
  else if (n =? 92)%N then String "\" (String c "")
  else if (n =? 8)%N then "\b"
  else if (n =? 9)%N then "\t"
  else if (n =? 10)%N then "\n"
  else if (n =? 12)%N then "\f"
  else if (n =? 13)%N then "\r"
  else if (n <? 32)%N then
    "\u00" +:+ String (hex_digit (n / 16)) (String (hex_digit (n mod 16)) "")
  else String c "".

Fixpoint quote_chars (s : string) : string :=
  match s with
  | EmptyString => ""
  | String c rest => quote_char c +:+ quote_chars rest
  end.

Definition dquote : string := String (ascii_of_N 34) "".

Definition QuoteJSONString (s : string) : string :=
  dquote +:+ quote_chars s +:+ dquote.

Fixpoint join_with (sep : string) (parts : list string) : string :=
  match parts with
  | [] => ""
  | [p] => p
  | p :: rest => p +:+ sep +:+ join_with sep rest
  end.

(** [Number::toString] on the modelled numbers that are finite: the decimal
    digits of an integer, with a minus sign when it is negative. *)
Definition Number_toString (n : jsnumber) : option string :=
  match n with
  | Int z => Some (NilZero.string_of_int (Z.to_int z))
  | NegZero => Some "0"
  | NaN | PosInfinity | NegInfinity => None
  end.

(** [SerializeJSONProperty]: [None] is the result [undefined].  In an array
    an element without a serialization is written [null]; in an object a
    property without a serialization is left out.  The properties of an
    object are written in the order of the list, which is the order
    JavaScript enumerates them in when no key is integer-like; and a number
    is written digit by digit, as JavaScript does for a safe integer.  The
    predicate [json_exact] below delimits these values. *)
Fixpoint JSON_stringify (v : value) : option string :=
  match v with
  | VUndefined | VFun _ => None
  | VNull => Some "null"
  | VBool b => Some (if b then "true" else "false")
  | VNum n => Some (default "null" (Number_toString n))
  | VStr s => Some (QuoteJSONString s)
  | VArr elems =>
      Some ("[" +:+
            join_with "," (map (fun e => default "null" (JSON_stringify e)) elems) +:+
            "]")
  | VObj props =>
      Some ("{" +:+
            join_with ","
              (omap (fun kv => match JSON_stringify (snd kv) with
                               | Some s => Some (QuoteJSONString (fst kv) +:+ ":" +:+ s)
                               | None => None
                               end) props) +:+
            "}")
  end.

(** ** The cache container and the memoization cache *)

(** [IntlCache]: seven slots, each holding a reference to a store object. *)
Module IntlCache.
Record t : Type := Make {
  dateTime : loc;
  number : loc;
  message : loc;
  relativeTime : loc;
  pluralRules : loc;
  list : loc;
  displayNames : loc;
}.
End IntlCache.

(** The slot of a container that belongs to a formatter kind. *)
Definition slot (cache : IntlCache.t) (k : Kind) : loc :=
  match k with
  | DateTime => IntlCache.dateTime cache
  | Number => IntlCache.number cache
  | Message => IntlCache.message cache
  | RelativeTime => IntlCache.relativeTime cache
  | PluralRules => IntlCache.pluralRules cache
  | ListKind => IntlCache.list cache
  | DisplayNames => IntlCache.displayNames cache
  end.

(** The object literal [{}]: a new, empty store at an unused address. *)
Definition new_store : M loc :=
  fun w => let l := fresh (dom (stores w)) in
           (Returned l, set_stores (fun h => <[l := ∅]> h) w).

Definition createIntlCache : M IntlCache.t :=
  let* dateTime := new_store in
  let* number := new_store in
  let* message := new_store in
  let* relativeTime := new_store in
  let* pluralRules := new_store in
  let* list := new_store in
  let* displayNames := new_store in
  ret (IntlCache.Make dateTime number message relativeTime pluralRules list displayNames).

(** The cache interface of the memoization library. *)
Record CacheStore : Type := {
  has : string -> M bool;
  get : string -> M (option instance);
  set : string -> instance -> M unit;
}.

Record Cache : Type := { create : unit -> CacheStore }.

(** [createFastMemoizeCache(store)].  [store[key]] is [None] when it reads
    [undefined]: a store holds formatter instances only.  The store is a
    plain object, so [key in store] and [store[key]] would also find what
    the store inherits; the keys the memoization uses are serialized
    argument lists, which start with an opening brace and so are never the
    name of an inherited property, and the cache is modelled on such keys
    only. *)
Definition createFastMemoizeCache (store : loc) : Cache :=
  {| create _ :=
       {| has key := let* w := get_world in
                     ret (bool_decide (is_Some (store_at w store !! key)));
          get key := let* w := get_world in
                     ret (store_at w store !! key);
          set key value := modify (write_store store key value) |} |}.

(** *** The memoization library

    [memoizeIntl] is the [fast-memoize] package, an external dependency.  Its
    [variadic] strategy serializes the whole argument list into the cache
    key, reads the cache, and on [undefined] computes the value, writes it
    and returns it; this is the hit and miss behaviour that section 4.3 of
    the specification describes.  Without a [serializer] option the key is
    [JSON.stringify(arguments)] of the serializer call, whose only argument
    is the argument list. *)

Definition serializerDefault (args : list value) : string :=
  default "undefined" (JSON_stringify (VObj [("0", VArr args)])).

Definition variadic (fn : list value -> M instance) (cache : CacheStore)
    (serializer : list value -> string) (args : list value) : M instance :=
  let cacheKey := serializer args in
  let* computedValue := get cache cacheKey in
  match computedValue with
  | None =>
      let* computedValue := fn args in
      set cache cacheKey computedValue ;;;
      ret computedValue
  | Some computedValue => ret computedValue
  end.

(** [memoizeIntl(fn, {cache, strategy: memoizeIntl.strategies.variadic})] *)
Definition memoizeIntl (fn : list value -> M instance) (cache : Cache) :
    list value -> M instance :=
  variadic fn (create cache tt) serializerDefault.

(** ** createFormatters *)

Record Formatters : Type := {
  getDateTimeFormat : list value -> M instance;
  getNumberFormat : list value -> M instance;
  getMessageFormat : list value -> M instance;
  getRelativeTimeFormat : list value -> M instance;
  getPluralRules : list value -> M instance;
  getListFormat : list value -> M instance;
  getDisplayNames : list value -> M instance;
}.

(** The memoized constructor of a kind. *)
Definition formatter (k : Kind) (fs : Formatters) : list value -> M instance :=
  match k with
  | DateTime => getDateTimeFormat fs
  | Number => getNumberFormat fs
  | Message => getMessageFormat fs
  | RelativeTime => getRelativeTimeFormat fs
  | PluralRules => getPluralRules fs
  | ListKind => getListFormat fs
  | DisplayNames => getDisplayNames fs
  end.

(** The [formatters] entry that [getMessageFormat] injects: the memoized
    number, date and plural-rules constructors of the same container. *)
Definition injected_formatters (cache : IntlCache.t) : value :=
  VObj [("getNumberFormat", VFun (MemoizedCtor Number (IntlCache.number cache)));
        ("getDateTimeFormat", VFun (MemoizedCtor DateTime (IntlCache.dateTime cache)));
        ("getPluralRules", VFun (MemoizedCtor PluralRules (IntlCache.pluralRules cache)))].

Section Platform.

(** The platform: for each kind and argument list, whether the underlying
    constructor ([Intl.DateTimeFormat], [Intl.NumberFormat],
    [Intl.PluralRules], [IntlMessageFormat], [Intl.RelativeTimeFormat],
    [Intl.ListFormat], [Intl.DisplayNames]) raises, and what.  The
    constructors are external: what they do is a function of their
    arguments, and they do not touch the memoization stores. *)
Variable platform_throws : Kind -> list value -> option error.

(** [new K(...args)]: the invocation is logged; unless the platform raises,
    a new object is allocated. *)
Definition construct (k : Kind) (args : list value) : M instance :=
  fun w =>
    let log := calls w ++ [(k, args)] in
    match platform_throws k args with
    | Some e => (Thrown e, World (stores w) (next_id w) log (console w) (NODE_ENV w))
    | None =>
        (Returned (Instance (next_id w) k args),
         World (stores w) (S (next_id w)) log (console w) (NODE_ENV w))
    end.

Definition createFormatters (cache : IntlCache.t) : Formatters :=
  let getDateTimeFormat :=
    memoizeIntl (fun args => construct DateTime args)
      (createFastMemoizeCache (IntlCache.dateTime cache)) in
  let getNumberFormat :=
    memoizeIntl (fun args => construct Number args)
      (createFastMemoizeCache (IntlCache.number cache)) in
  let getPluralRules :=
    memoizeIntl (fun args => construct PluralRules args)
      (createFastMemoizeCache (IntlCache.pluralRules cache)) in
  {| getDateTimeFormat := getDateTimeFormat;
     getNumberFormat := getNumberFormat;
     getMessageFormat :=
       memoizeIntl
         (fun args =>
            let message := nth 0 args VUndefined in
            let locales := nth 1 args VUndefined in
            let overrideFormats := nth 2 args VUndefined in
            let opts := nth 3 args VUndefined in
            construct Message
              [message; locales; overrideFormats;
               VObj (spread [("formatters", injected_formatters cache)] (or_empty opts))])
         (createFastMemoizeCache (IntlCache.message cache));
     getRelativeTimeFormat :=
       memoizeIntl (fun args => construct RelativeTime args)
         (createFastMemoizeCache (IntlCache.relativeTime cache));
     getPluralRules := getPluralRules;
     getListFormat :=
       memoizeIntl (fun args => construct ListKind args)
         (createFastMemoizeCache (IntlCache.list cache));
     getDisplayNames :=
       memoizeIntl (fun args => construct DisplayNames args)
         (createFastMemoizeCache (IntlCache.displayNames cache)) |}.

(** [createFormatters()] without an argument: the default parameter value
    [createIntlCache()] is evaluated first. *)
Definition createFormatters_default : M Formatters :=
  let* cache := createIntlCache in
  ret (createFormatters cache).

End Platform.

(* ===================================================================== *)
(** * Part II: the vocabulary of the properties *)
(* ===================================================================== *)

(** ** Values and lookups *)

(** The falsy values of the model. *)
Definition falsy_values : list value :=
  [VUndefined; VNull; VBool false; VNum (Int 0); VNum NegZero; VNum NaN; VStr ""].

(** What an allowed key that is not inherited contributes to the result of
    [filterProps]: the own property of the source first, then that of the
    defaults. *)
Definition selected (props defaults : object) (name : string) : option value :=
  match obj_lookup name props with
  | Some v => Some v
  | None => obj_lookup name defaults
  end.

(** The property that every plain object inherits under [name], if any. *)
Definition inherited (name : string) : option value :=
  obj_lookup name Object_prototype.

(** What one allowed key contributes to the result of [filterProps] when
    the source and the defaults are plain objects: the own property of the
    source, else the property the source inherits, else the own property of
    the defaults; and nothing for [__proto__], whose assignment defines no
    property. *)
Definition contributed (props defaults : object) (name : string) : option value :=
  if String.eqb name "__proto__" then None
  else match obj_lookup name props with
       | Some v => Some v
       | None =>
           match inherited name with
           | Some f => Some f
           | None => obj_lookup name defaults
           end
       end.

(** The names that are the decimal notation of a natural number ([0],
    [7], [42], not [007]).  JavaScript lists the properties with such names
    (up to [2^32 - 2]) before the others and in ascending order, whatever
    the order they were defined in. *)
Definition is_digit (c : ascii) : bool :=
  let n := N_of_ascii c in (48 <=? n)%N && (n <=? 57)%N.

Definition integer_like (s : string) : bool :=
  match s with
  | EmptyString => false
  | String c rest =>
      forallb is_digit (list_ascii_of_string s) &&
      (negb (Ascii.eqb c "0") || String.eqb rest "")
  end.

(** The error [invariantIntlContext] raises. *)
Definition intl_missing : error :=
  Error ("[React Intl] Could not find required `intl` object. " +:+
         "<IntlProvider> needs to exist in the component ancestry.").

(** The error [getNamedFormat] reports for a missing format. *)
Definition unsupported (type name : string) : error :=
  UnsupportedFormatterError ("No " +:+ type +:+ " format named: " +:+ name).

(** What the lookup of [getNamedFormat] finds: [formats[type][name]], or
    [undefined] when the table or the entry of the kind is falsy. *)
Definition registered (formats : value) (type name : string) : value :=
  let formatType := and_then formats (fun formats => get_prop formats type) in
  if truthy formatType then get_prop formatType name else VUndefined.

(** The format tables whose reads the model follows: a falsy table, or a
    plain object whose entry for the kind is falsy, or a plain object, or
    missing without the kind being a name that every object inherits. *)
Definition plain_table (formats : value) (type : string) : Prop :=
  truthy formats = false \/
  exists table,
    formats = VObj table /\
    match obj_lookup type table with
    | Some v => truthy v = false \/ exists fmts, v = VObj fmts
    | None => inherited type = None
    end.

(** ** Worlds *)

(** The world after one more invocation of a platform constructor that
    allocated [fresh_ids] objects. *)
Definition logged (k : Kind) (args : list value) (fresh_ids : nat) (w : world) : world :=
  World (stores w) (fresh_ids + next_id w) (calls w ++ [(k, args)]) (console w) (NODE_ENV w).

(** An invariant of the world: every stored instance was allocated before
    ([ids_bounded]), and one instance is stored at one place only
    ([ids_unique]). *)
Definition ids_bounded (w : world) : Prop :=
  forall l key i, store_at w l !! key = Some i -> inst_id i < next_id w.

Definition ids_unique (w : world) : Prop :=
  forall l l' key key' i i',
    store_at w l !! key = Some i -> store_at w l' !! key' = Some i' ->
    inst_id i = inst_id i' -> l = l' /\ key = key'.

Definition world_ok (w : world) : Prop := ids_bounded w /\ ids_unique w.

(** [allocated w0 w ls]: the world [w] is [w0] after the store objects [ls]
    were created, the latest first. *)
Definition allocated (w0 w : world) (ls : list loc) : Prop :=
  NoDup ls /\
  (forall l, l ∈ ls -> stores w !! l = Some ∅ /\ l ∉ dom (stores w0)) /\
  dom (stores w0) ⊆ dom (stores w) /\
  (forall l, store_at w l = store_at w0 l) /\
  next_id w = next_id w0 /\ calls w = calls w0.

(** [heap_extends n w w']: the heap of [w'] is that of [w] with [n] more
    store objects; the stores of [w] are all there as they were, and the
    console and the environment are untouched. *)
Definition heap_extends (n : nat) (w w' : world) : Prop :=
  size (stores w') = n + size (stores w) /\
  dom (stores w) ⊆ dom (stores w') /\
  (forall l, l ∈ dom (stores w) -> stores w' !! l = stores w !! l) /\
  console w' = console w /\ NODE_ENV w' = NODE_ENV w.

(** ** Containers and constructors *)

(** The seven stores of a container are seven different objects. *)
Definition independent_slots (cache : IntlCache.t) : Prop :=
  NoDup (map (slot cache) kinds).

(** The arguments the underlying constructor of kind [k] receives when the
    memoized constructor is called with [args]. *)
Definition ctor_args (cache : IntlCache.t) (k : Kind) (args : list value) : list value :=
  match k with
  | Message =>
      [nth 0 args VUndefined; nth 1 args VUndefined; nth 2 args VUndefined;
       VObj (spread [("formatters", injected_formatters cache)]
               (or_empty (nth 3 args VUndefined)))]
  | _ => args
  end.


(** The stores of a container are coherent when every entry of the store of
    a kind holds an instance of that kind, built from the constructor
    arguments of a tuple that has the key of the entry. *)
Definition coherent (cache : IntlCache.t) (w : world) : Prop :=
  forall k key i,
    store_at w (slot cache k) !! key = Some i ->
    inst_kind i = k /\
    exists args, key = serializerDefault args /\ inst_args i = ctor_args cache k args.

(** A client that calls a constructor on each tuple of a list in turn and
    collects the instances. *)
Fixpoint call_all (f : list value -> M instance) (tuples : list (list value)) :
    M (list instance) :=
  match tuples with
  | [] => ret []
  | args :: rest =>
      let* i := f args in
      let* others := call_all f rest in
      ret (i :: others)
  end.


(** What [console.error] has written between two worlds when nothing else
    differs. *)
Definition logs (w w' : world) (es : list error) : Prop :=
  stores w' = stores w /\ next_id w' = next_id w /\ calls w' = calls w /\
  NODE_ENV w' = NODE_ENV w /\ console w' = console w ++ es.

(** ** JSON texts *)















(** ** Sample data *)

(** The world with nothing in it. *)
Definition empty_world : world := World ∅ 0 [] [] None.

(** A platform whose constructors never raise, and one that rejects the
    locale [xx]. *)
Definition never_throws : Kind -> list value -> option error := fun _ _ => None.

Definition rejects_xx : Kind -> list value -> option error :=
  fun _ args =>
    match args with
    | VStr s :: _ =>
        if String.eqb s "xx"
        then Some (PlatformError "RangeError" "Incorrect locale information provided")
        else None
    | _ => None
    end.

(** The container and the world that [createIntlCache] makes out of the
    empty world. *)
Definition fresh_cache : IntlCache.t :=
  IntlCache.Make 1%positive 2%positive 3%positive 4%positive 5%positive 6%positive
    7%positive.

Definition fresh_world : world :=
  World (list_to_map (map (fun l => (l, ∅)) [1; 2; 3; 4; 5; 6; 7]%positive)) 0 [] [] None.

Definition en : list value := [VStr "en"].
Definition en_currency : list value := [VStr "en"; VObj [("style", VStr "currency")]].
Definition en_percent : list value := [VStr "en"; VObj [("style", VStr "percent")]].
Definition en_plain : list value := [VStr "en"; VObj []].
Definition en_style_undefined : list value := [VStr "en"; VObj [("style", VUndefined)]].

Definition currency_formats : object :=
  [("number", VObj [("USD", VObj [("style", VStr "currency")])])].

Definition own_formatters : object :=
  [("formatters", VObj [("getNumberFormat", VFun (UserFn "myNumberFormat"))])].

(* ===================================================================== *)
(** * Part III: lemmas and theorems *)
(* ===================================================================== *)

(** ** Plain objects *)

Lemma obj_lookup_set_eq name v (o : object) :
  obj_lookup name (obj_set name v o) = Some v.
Proof.
  induction o as [|[k w] rest IH]; simpl.
  - by rewrite String.eqb_refl.
  - destruct (String.eqb k name) eqn:E; simpl; rewrite E; [done | exact IH].
Qed.

Lemma obj_lookup_set_ne name name' v (o : object) :
  name ≠ name' -> obj_lookup name' (obj_set name v o) = obj_lookup name' o.
Proof.
  intros Hne. induction o as [|[k w] rest IH]; simpl.
  - destruct (String.eqb_spec name name'); [done | reflexivity].
  - destruct (String.eqb_spec k name) as [->|Hk]; simpl.
    + destruct (String.eqb_spec name name'); [done | reflexivity].
    + destruct (String.eqb k name'); [reflexivity | exact IH].
Qed.

Lemma obj_lookup_set name name' v (o : object) :
  obj_lookup name' (obj_set name v o) =
  if decide (name = name') then Some v else obj_lookup name' o.
Proof.
  case_decide as H; [subst; apply obj_lookup_set_eq | by apply obj_lookup_set_ne].
Qed.

Lemma obj_lookup_singleton name v : obj_lookup name [(name, v)] = Some v.
Proof. cbn [obj_lookup]. by rewrite String.eqb_refl. Qed.

Lemma obj_lookup_singleton_ne name name' v :
  name' <> name -> obj_lookup name' [(name, v)] = None.
Proof.
  intros Hne. cbn [obj_lookup]. destruct (String.eqb_spec name name'); congruence.
Qed.

Lemma obj_has_true name (o : object) :
  obj_has name o = true <-> is_Some (obj_lookup name o).
Proof. unfold obj_has. by rewrite bool_decide_eq_true. Qed.

Lemma obj_has_false name (o : object) :
  obj_has name o = false <-> obj_lookup name o = None.
Proof. unfold obj_has. by rewrite bool_decide_eq_false, eq_None_not_Some. Qed.

Lemma obj_get_lookup name (o : object) v :
  obj_lookup name o = Some v -> obj_get name o = v.
Proof. unfold obj_get. by intros ->. Qed.

Lemma obj_keys_set name v (o : object) :
  obj_keys (obj_set name v o) =
  if obj_has name o then obj_keys o else obj_keys o ++ [name].
Proof.
  induction o as [|[k w] rest IH]; simpl; [done|].
  unfold obj_has in *; simpl.
  destruct (String.eqb_spec k name) as [->|Hk]; simpl.
  - reflexivity.
  - rewrite IH. by destruct (bool_decide _).
Qed.

Lemma obj_lookup_None_keys name (o : object) :
  obj_lookup name o = None <-> name ∉ obj_keys o.
Proof.
  induction o as [|[k w] rest IH]; simpl.
  - split; [intros _; apply not_elem_of_nil | done].
  - rewrite not_elem_of_cons. destruct (String.eqb_spec k name) as [->|Hk].
    + split; [done | by intros [? _]].
    + rewrite IH. split; [intros ?; split; [congruence | done] | by intros [_ ?]].
Qed.

(** Assignment keeps an object well formed. *)
Lemma obj_set_NoDup name v (o : object) :
  NoDup (obj_keys o) -> NoDup (obj_keys (obj_set name v o)).
Proof.
  intros Hnd. rewrite obj_keys_set.
  destruct (obj_has name o) eqn:E; [done|].
  apply obj_has_false, obj_lookup_None_keys in E.
  apply NoDup_app. split_and!; [done | | apply NoDup_singleton].
  intros x Hx ->%list_elem_of_singleton. done.
Qed.

(** Spreading a well-formed object over a target: the properties of the
    source win, the others are those of the target. *)
Lemma spread_lookup (target source : object) name :
  NoDup (obj_keys source) ->
  obj_lookup name (spread target (VObj source)) =
  match obj_lookup name source with
  | Some v => Some v
  | None => obj_lookup name target
  end.
Proof.
  unfold spread; simpl. revert target.
  induction source as [|[k v] rest IH]; intros target Hnd; simpl; [done|].
  apply NoDup_cons in Hnd as [Hk Hnd]. simpl in Hk.
  rewrite IH by done.
  destruct (String.eqb_spec k name) as [->|Hne].
  - apply obj_lookup_None_keys in Hk. by rewrite Hk, obj_lookup_set_eq.
  - by rewrite obj_lookup_set_ne.
Qed.

(** ** filterProps *)

Lemma inherited_proto : inherited "__proto__" = Some (VObj []).
Proof. reflexivity. Qed.

Lemma not_inherited_not_proto name :
  inherited name = None -> String.eqb name "__proto__" = false.
Proof.
  intros H. destruct (String.eqb_spec name "__proto__") as [->|]; [|done].
  by rewrite inherited_proto in H.
Qed.

Lemma contributed_not_inherited props defaults name :
  inherited name = None -> contributed props defaults name = selected props defaults name.
Proof.
  intros H. unfold contributed, selected. by rewrite (not_inherited_not_proto _ H), H.
Qed.


Section FilterProps.
Variables (props defaults : object).

(** The callback of the [reduce], by what the key contributes. *)
Lemma filter_step_contributed filtered n :
  filter_step props defaults filtered n =
  match contributed props defaults n with
  | Some v => obj_set n v filtered
  | None => filtered
  end.
Proof.
  unfold filter_step, contributed, obj_assign, obj_in, obj_read, inherited.
  destruct (String.eqb n "__proto__"); [by repeat case_match|].
  destruct (obj_lookup n props) as [v|] eqn:Hp.
  - by rewrite (proj2 (obj_has_true n props)) by eauto.
  - rewrite (proj2 (obj_has_false n props) Hp), orb_false_l.
    destruct (obj_lookup n Object_prototype) as [f|] eqn:Hi.
    + rewrite (proj2 (obj_has_true n Object_prototype)) by eauto.
      by rewrite (obj_get_lookup _ _ _ Hi).
    + rewrite (proj2 (obj_has_false n Object_prototype) Hi). rewrite orb_false_r.
      destruct (obj_lookup n defaults) as [v|] eqn:Hd.
      * by rewrite (proj2 (obj_has_true n defaults)) by eauto.
      * by rewrite (proj2 (obj_has_false n defaults) Hd).
Qed.



Lemma filter_fold_NoDup whitelist filtered :
  NoDup (obj_keys filtered) ->
  NoDup (obj_keys (fold_left (filter_step props defaults) whitelist filtered)).
Proof.
  revert filtered.
  induction whitelist as [|n whitelist IH]; intros filtered Hnd; simpl; [done|].
  apply IH. rewrite filter_step_contributed.
  case_match; auto using obj_set_NoDup.
Qed.

End FilterProps.






Example filterProps_source_and_default :
  filterProps [("a", VNum (Int 1)); ("b", VNum (Int 2))] ["a"; "c"]
    (Some [("c", VNum (Int 3))])
  = [("a", VNum (Int 1)); ("c", VNum (Int 3))].
Proof. reflexivity. Qed.

Example filterProps_absent_everywhere :
  filterProps [("a", VNum (Int 1))] ["z"] None = [].
Proof. reflexivity. Qed.

(** ** Truthiness and the context assertion *)

Lemma truthy_false_iff (v : value) : truthy v = false <-> v ∈ falsy_values.
Proof.
  unfold falsy_values. split.
  - destruct v as [| |[]|[| | | |[]]|[]| | |]; simpl; try discriminate; intros _;
      repeat first [by left | right].
  - intros H. repeat (apply elem_of_cons in H as [->|H]; [reflexivity|]).
    by apply elem_of_nil in H.
Qed.

Lemma invariantIntlContext_run (intl : value) (w : world) :
  invariantIntlContext intl w =
  if truthy intl then (Returned tt, w) else (Thrown intl_missing, w).
Proof. unfold invariantIntlContext, invariant. by destruct (truthy intl). Qed.

(** C8.  [invariantIntlContext] throws exactly when its argument is falsy,
    and then it throws the descriptive error and leaves the world as it
    was; for a truthy argument it returns normally.  [undefined], [null],
    [0] and the empty string are falsy, and every object is truthy. *)
Theorem invariantIntlContext_throws_iff_falsy (intl : value) (w : world) :
  (invariantIntlContext intl w = (Thrown intl_missing, w) <-> truthy intl = false) /\
  (invariantIntlContext intl w = (Returned tt, w) <-> truthy intl = true) /\
  (truthy intl = false <-> intl ∈ falsy_values) /\
  Forall (fun v => invariantIntlContext v w = (Thrown intl_missing, w))
    [VUndefined; VNull; VNum (Int 0); VStr ""] /\
  (forall o : object, invariantIntlContext (VObj o) w = (Returned tt, w)).
Proof.
  split_and!.
  - rewrite invariantIntlContext_run. destruct (truthy intl); split; congruence.
  - rewrite invariantIntlContext_run. destruct (truthy intl); split; congruence.
  - apply truthy_false_iff.
  - repeat constructor.
  - intros o. by rewrite invariantIntlContext_run.
Qed.

(** ** getNamedFormat *)

Lemma getNamedFormat_run formats type name onError :
  getNamedFormat formats type name onError =
  if truthy (registered formats type name)
  then ret (registered formats type name)
  else (onError (unsupported type name) ;;; ret VUndefined).
Proof. reflexivity. Qed.

Lemma obj_read_lookup name (o : object) v :
  obj_lookup name o = Some v -> obj_read name o = v.
Proof. unfold obj_read. by intros ->. Qed.

Lemma obj_read_inherited name (o : object) :
  obj_lookup name o = None -> obj_read name o = default VUndefined (inherited name).
Proof. unfold obj_read, inherited, obj_get. by intros ->. Qed.

(** What a plain object inherits is truthy: a function, or the prototype. *)
Lemma inherited_truthy name f : inherited name = Some f -> truthy f = true.
Proof.
  unfold inherited, Object_prototype. cbn [obj_lookup].
  repeat (destruct (String.eqb _ name); [by intros [= <-]|]). done.
Qed.

Lemma registered_object table type name fmts :
  obj_lookup type table = Some (VObj fmts) ->
  registered (VObj table) type name = obj_read name fmts.
Proof.
  intros H. unfold registered, and_then. cbn [truthy get_prop].
  by rewrite (obj_read_lookup _ _ _ H).
Qed.

Lemma registered_no_kind table type name :
  obj_lookup type table = None -> inherited type = None ->
  registered (VObj table) type name = VUndefined.
Proof.
  intros H Hi. unfold registered, and_then. cbn [truthy get_prop].
  by rewrite (obj_read_inherited _ _ H), Hi.
Qed.

(** A table that is itself [undefined] or [null] has no format at all. *)
Lemma getNamedFormat_no_table formats type name onError :
  truthy formats = false ->
  getNamedFormat formats type name onError =
  (onError (unsupported type name) ;;; ret VUndefined).
Proof.
  intros H. rewrite getNamedFormat_run. unfold registered, and_then. by rewrite H, H.
Qed.

(** A truthy registered value is returned as it is, whatever the callback. *)
Lemma getNamedFormat_truthy table type name fmts v onError :
  obj_lookup type table = Some (VObj fmts) ->
  obj_lookup name fmts = Some v ->
  truthy v = true ->
  getNamedFormat (VObj table) type name onError = ret v.
Proof.
  intros Ht Hn Hv.
  rewrite getNamedFormat_run, (registered_object _ _ _ _ Ht), (obj_read_lookup _ _ _ Hn).
  by rewrite Hv.
Qed.

(** C2, as amended.  For a table that is a plain object.  When the table
    has the kind and the kind has the name, registered with an option bag,
    [getNamedFormat] returns that bag and the callback is not called.  When
    the kind is a property of the table neither of its own nor inherited,
    or the name is a property of the kind's formats neither of their own
    nor inherited, [getNamedFormat] behaves as one call of the callback on
    the unsupported formatter error built from the kind and the name,
    followed by the return of [undefined].  When the name is not registered
    under the kind but names a property that every object inherits,
    [getNamedFormat] returns that inherited property and the callback is
    not called. *)
Theorem getNamedFormat_lookup (table : object) (type name : string)
    (onError : error -> M unit) :
  (forall fmts bag,
      obj_lookup type table = Some (VObj fmts) ->
      obj_lookup name fmts = Some (VObj bag) ->
      getNamedFormat (VObj table) type name onError = ret (VObj bag)) /\
  ((obj_lookup type table = None /\ inherited type = None \/
    exists fmts, obj_lookup type table = Some (VObj fmts) /\
                 obj_lookup name fmts = None /\ inherited name = None) ->
   getNamedFormat (VObj table) type name onError =
   (onError (unsupported type name) ;;; ret VUndefined)) /\
  (forall fmts f,
      obj_lookup type table = Some (VObj fmts) ->
      obj_lookup name fmts = None -> inherited name = Some f ->
      getNamedFormat (VObj table) type name onError = ret f).
Proof.
  split_and!.
  - intros fmts bag Ht Hn. by eapply getNamedFormat_truthy.
  - intros [[Ht Hi] | (fmts & Ht & Hn & Hi)]; rewrite getNamedFormat_run.
    + by rewrite (registered_no_kind _ _ _ Ht Hi).
    + by rewrite (registered_object _ _ _ _ Ht), (obj_read_inherited _ _ Hn), Hi.
  - intros fmts f Ht Hn Hi.
    rewrite getNamedFormat_run, (registered_object _ _ _ _ Ht).
    rewrite (obj_read_inherited _ _ Hn), Hi. cbn [default from_option id].
    by rewrite (inherited_truthy _ _ Hi).
Qed.

Lemma getNamedFormat_lookup_witness :
  getNamedFormat (VObj currency_formats) "number" "USD" defaultErrorHandler
  = ret (VObj [("style", VStr "currency")]) /\
  getNamedFormat (VObj []) "number" "USD" defaultErrorHandler empty_world
  = (Returned VUndefined,
     World ∅ 0 [] [UnsupportedFormatterError "No number format named: USD"] None) /\
  getNamedFormat (VObj currency_formats) "number" "valueOf" defaultErrorHandler
  = ret (VFun (Builtin "Object.prototype.valueOf")).
Proof.
  split_and!.
  - apply (proj1 (getNamedFormat_lookup currency_formats "number" "USD" defaultErrorHandler)
             [("USD", VObj [("style", VStr "currency")])]); reflexivity.
  - rewrite (proj1 (proj2 (getNamedFormat_lookup [] "number" "USD" defaultErrorHandler)));
      [reflexivity | left; split; reflexivity].
  - apply (proj2 (proj2 (getNamedFormat_lookup currency_formats "number" "valueOf"
                           defaultErrorHandler))
             [("USD", VObj [("style", VStr "currency")])]); reflexivity.
Defined.

(** C2 as stated fails.  The name [constructor] is absent under the kind
    [number], whose formats are [{}]; yet [getNamedFormat] returns a value,
    the function every object inherits under that name, and the callback is
    not called: nothing is written to the console. *)
Lemma getNamedFormat_finds_inherited_name :
  obj_lookup "constructor" [] = None /\
  getNamedFormat (VObj [("number", VObj [])]) "number" "constructor" defaultErrorHandler
    empty_world
  = (Returned (VFun (Builtin "Object")), empty_world) /\
  (defaultErrorHandler (unsupported "number" "constructor") ;;; ret VUndefined) empty_world
  = (Returned VUndefined,
     World ∅ 0 [] [UnsupportedFormatterError "No number format named: constructor"] None).
Proof. split_and!; reflexivity. Qed.

(** C9.  Presence is decided by truthiness: when the kind and the name are
    both keys of the table but the registered value is falsy,
    [getNamedFormat] reports the format as missing (one call of the
    callback) and returns [undefined], not the registered value. *)
Theorem getNamedFormat_falsy_registered (table : object) (type name : string)
    (fmts : object) (v : value) (onError : error -> M unit) :
  obj_lookup type table = Some (VObj fmts) ->
  obj_lookup name fmts = Some v ->
  truthy v = false ->
  getNamedFormat (VObj table) type name onError =
  (onError (unsupported type name) ;;; ret VUndefined).
Proof.
  intros Ht Hn Hv.
  rewrite getNamedFormat_run, (registered_object _ _ _ _ Ht), (obj_read_lookup _ _ _ Hn).
  by rewrite Hv.
Qed.

Lemma getNamedFormat_falsy_registered_witness :
  getNamedFormat (VObj [("number", VObj [("USD", VStr "")])]) "number" "USD"
    defaultErrorHandler empty_world
  = (Returned VUndefined,
     World ∅ 0 [] [UnsupportedFormatterError "No number format named: USD"] None).
Proof.
  rewrite (getNamedFormat_falsy_registered
             [("number", VObj [("USD", VStr "")])] "number" "USD"
             [("USD", VStr "")] (VStr "") defaultErrorHandler); reflexivity.
Defined.

(** ** JSON serialization is injective on plain values *)

(** The proof reads a text from the left: the first character tells the kind
    of value, and the text of a value followed by a terminator determines
    the value and what follows it. *)

Lemma string_app_cons c s t : String c s +:+ t = String c (s +:+ t).
Proof. reflexivity. Qed.


Lemma string_app_nil_r s : s +:+ "" = s.
Proof. induction s as [|c s IH]; [done|]. by rewrite string_app_cons, IH. Qed.






















(** A cache key starts with an opening brace: it is never the name of a
    property that a store object inherits. *)
Lemma serializerDefault_head args :
  exists rest, serializerDefault args = String "{" rest.
Proof. unfold serializerDefault. cbn [JSON_stringify default from_option id]. eauto. Qed.

(** ** Stores and worlds *)

Lemma store_at_write_store l key value w l' :
  store_at (write_store l key value w) l' =
  if decide (l = l') then <[key := value]> (store_at w l) else store_at w l'.
Proof.
  unfold write_store, store_at, set_stores; simpl.
  case_decide as H; [subst; by rewrite lookup_insert_eq | by rewrite lookup_insert_ne].
Qed.

Lemma lookup_write_store l key value w l' key' :
  store_at (write_store l key value w) l' !! key' =
  if decide (l = l' /\ key = key') then Some value else store_at w l' !! key'.
Proof.
  rewrite store_at_write_store.
  destruct (decide (l = l')) as [<-|Hl].
  - rewrite lookup_insert. destruct (decide (key = key')) as [<-|Hk].
    + by rewrite decide_True.
    + rewrite decide_False; [done | by intros [_ ?]].
  - rewrite decide_False; [done | by intros [? _]].
Qed.

Lemma store_at_logged k args n w l : store_at (logged k args n w) l = store_at w l.
Proof. reflexivity. Qed.

Lemma store_at_new_store w l w' l' :
  new_store w = (Returned l, w') ->
  store_at w' l' = store_at w l'.
Proof.
  intros [= <- <-]. unfold store_at, set_stores; simpl.
  destruct (decide (fresh (dom (stores w)) = l')) as [<-|Hne].
  - rewrite lookup_insert_eq.
    by rewrite (not_elem_of_dom_1 (stores w) _ (is_fresh (dom (stores w)))).
  - by rewrite lookup_insert_ne.
Qed.

(** The two methods of the cache that read the store agree: a key is in the
    store exactly when reading it gives an instance. *)
Lemma cache_has_get store key w :
  has (create (createFastMemoizeCache store) tt) key w =
    (Returned (bool_decide (is_Some (store_at w store !! key))), w) /\
  get (create (createFastMemoizeCache store) tt) key w =
    (Returned (store_at w store !! key), w) /\
  forall value,
    set (create (createFastMemoizeCache store) tt) key value w =
      (Returned tt, write_store store key value w).
Proof. done. Qed.

Lemma world_ok_empty : world_ok empty_world.
Proof. split; intros l; intros *; unfold store_at; simpl; by rewrite lookup_empty. Qed.

Lemma world_ok_store_at w w' :
  (forall l, store_at w' l = store_at w l) -> next_id w' = next_id w ->
  world_ok w -> world_ok w'.
Proof.
  intros Hs Hn [Hb Hu]. split.
  - intros l key i. rewrite Hs, Hn. apply Hb.
  - intros l l' key key' i i'. rewrite !Hs. apply Hu.
Qed.

(** ** createIntlCache *)

Lemma independent_slots_ne cache k k' :
  independent_slots cache -> k <> k' -> slot cache k <> slot cache k'.
Proof.
  unfold independent_slots, kinds. simpl. intros Hnd Hne Heq.
  repeat match goal with
         | H : NoDup (_ :: _) |- _ => apply NoDup_cons in H as [? ?]
         end.
  repeat match goal with
         | H : _ ∉ _ :: _ |- _ => apply not_elem_of_cons in H as [? ?]
         end.
  destruct k, k'; simpl in *; congruence.
Qed.

Lemma allocated_nil w0 : allocated w0 w0 [].
Proof.
  split_and!; try done; [apply NoDup_nil_2 | by intros l ?%elem_of_nil].
Qed.

Lemma allocated_new_store w0 w ls l w' :
  allocated w0 w ls ->
  new_store w = (Returned l, w') ->
  allocated w0 w' (l :: ls).
Proof.
  intros (Hnd & Hls & Hsub & Hst & Hn & Hc) Hnew.
  assert (Hfresh : l ∉ dom (stores w)).
  { injection Hnew as <- _. apply is_fresh. }
  assert (Hstores : stores w' = <[l := ∅]> (stores w)).
  { by injection Hnew as <- <-. }
  split_and!.
  - apply NoDup_cons. split; [|done].
    intros [Hl _]%Hls. apply Hfresh, elem_of_dom. by rewrite Hl.
  - intros x [->|Hx]%elem_of_cons; rewrite Hstores.
    + split; [apply lookup_insert_eq|]. intros Hin. by apply Hfresh, Hsub.
    + destruct (Hls x Hx) as [Hlx ?]. split; [|done].
      rewrite lookup_insert_ne; [done|].
      intros ->. apply Hfresh, elem_of_dom. by rewrite Hlx.
  - rewrite Hstores, dom_insert_L. by apply union_subseteq_r'.
  - intros l'. by rewrite (store_at_new_store _ _ _ _ Hnew).
  - by injection Hnew as _ <-.
  - by injection Hnew as _ <-.
Qed.

(** One more store object: the next step of [createIntlCache]. *)
Ltac next_store H E l w' H' :=
  match goal with
  | |- context [new_store ?w] =>
      let r := fresh "r" in
      destruct (new_store w) as [r w'] eqn:E;
      assert (exists l, r = Returned l) as [l ->] by (injection E as <- _; eauto);
      pose proof (allocated_new_store _ _ _ _ _ H E) as H'
  end.

(** [createIntlCache] returns a container of seven pairwise different store
    objects, none of which existed before; each of them is empty, and
    nothing else in the world changes. *)
Lemma createIntlCache_fresh w :
  exists cache w',
    createIntlCache w = (Returned cache, w') /\
    independent_slots cache /\
    (forall k, stores w' !! slot cache k = Some ∅ /\ slot cache k ∉ dom (stores w)) /\
    (forall l, store_at w' l = store_at w l) /\
    next_id w' = next_id w /\ calls w' = calls w.
Proof.
  unfold createIntlCache, bind.
  pose proof (allocated_nil w) as H0.
  next_store H0 E1 l1 w1 H1. next_store H1 E2 l2 w2 H2. next_store H2 E3 l3 w3 H3.
  next_store H3 E4 l4 w4 H4. next_store H4 E5 l5 w5 H5. next_store H5 E6 l6 w6 H6.
  next_store H6 E7 l7 w7 H7.
  destruct H7 as (Hnd & Hls & _ & Hst & Hn & Hc).
  eexists _, _. split; [reflexivity|]. split_and!; try done.
  - unfold independent_slots, kinds; simpl.
    change [l1; l2; l3; l4; l5; l6; l7] with (reverse [l7; l6; l5; l4; l3; l2; l1]).
    by rewrite reverse_Permutation.
  - intros k. apply Hls. destruct k; simpl; repeat first [by left | right].
Qed.

Lemma createIntlCache_world_ok w cache w' :
  createIntlCache w = (Returned cache, w') -> world_ok w -> world_ok w'.
Proof.
  intros Hrun. destruct (createIntlCache_fresh w) as (c & w1 & E & _ & _ & Hst & Hn & _).
  rewrite Hrun in E. injection E as <- <-. by apply world_ok_store_at.
Qed.

Lemma createIntlCache_empty_world :
  createIntlCache empty_world = (Returned fresh_cache, fresh_world).
Proof. vm_compute. reflexivity. Qed.

Lemma world_ok_fresh_world : world_ok fresh_world.
Proof.
  exact (createIntlCache_world_ok _ _ _ createIntlCache_empty_world world_ok_empty).
Qed.

Lemma independent_slots_fresh_cache : independent_slots fresh_cache.
Proof.
  destruct (createIntlCache_fresh empty_world) as (c & w1 & E & Hind & _).
  rewrite createIntlCache_empty_world in E. by injection E as <- _.
Qed.

(** ** The memoized constructors *)

Section Memoized.
Variable platform_throws : Kind -> list value -> option error.
Implicit Types (cache : IntlCache.t) (k : Kind) (args : list value) (w : world).

Abbreviation formatters := (createFormatters platform_throws).
Abbreviation new := (construct platform_throws).

(** Every memoized constructor is the same memoization of the kind's
    platform constructor over the kind's slot. *)
Lemma formatter_createFormatters cache k :
  formatter k (formatters cache) =
  memoizeIntl (fun args => new k (ctor_args cache k args))
    (createFastMemoizeCache (slot cache k)).
Proof. by destruct k. Qed.

Lemma construct_run k args w :
  new k args w =
  match platform_throws k args with
  | Some e => (Thrown e, logged k args 0 w)
  | None => (Returned (Instance (next_id w) k args), logged k args 1 w)
  end.
Proof. unfold construct, logged. by destruct (platform_throws k args). Qed.

(** One call of a memoized constructor, case by case: a hit returns the
    stored instance and changes nothing; a miss invokes the platform
    constructor, and stores what it returns under the key. *)
Lemma memoized_run cache k args w :
  formatter k (formatters cache) args w =
  match store_at w (slot cache k) !! serializerDefault args with
  | Some i => (Returned i, w)
  | None =>
      match platform_throws k (ctor_args cache k args) with
      | Some e => (Thrown e, logged k (ctor_args cache k args) 0 w)
      | None =>
          let i := Instance (next_id w) k (ctor_args cache k args) in
          (Returned i,
           write_store (slot cache k) (serializerDefault args) i
             (logged k (ctor_args cache k args) 1 w))
      end
  end.
Proof.
  rewrite formatter_createFormatters.
  unfold memoizeIntl, variadic, bind, get_world, ret; simpl.
  destruct (store_at w (slot cache k) !! serializerDefault args) as [i|]; [done|].
  rewrite construct_run.
  by destruct (platform_throws k (ctor_args cache k args)).
Qed.

(** The three cases of a run [Hrun : formatter k _ args w = (r, w')]: hit,
    miss with a platform failure, miss with a new instance. *)
Ltac memoized_cases Hrun :=
  rewrite memoized_run in Hrun; cbv zeta in Hrun;
  let Hkey := fresh "Hkey" in
  let Hplat := fresh "Hplat" in
  destruct (store_at _ _ !! serializerDefault _) eqn:Hkey in Hrun;
  [ | destruct (platform_throws _ _) eqn:Hplat in Hrun ];
  simplify_eq.

Lemma memoized_hit cache k args w i :
  store_at w (slot cache k) !! serializerDefault args = Some i ->
  formatter k (formatters cache) args w = (Returned i, w).
Proof. intros H. by rewrite memoized_run, H. Qed.

(** A call returns whenever the platform constructor does not raise. *)
Lemma memoized_returns cache k args w :
  platform_throws k (ctor_args cache k args) = None ->
  exists i w', formatter k (formatters cache) args w = (Returned i, w').
Proof.
  intros Hp. rewrite memoized_run, Hp.
  destruct (store_at w (slot cache k) !! serializerDefault args); eauto.
Qed.

(** After a call that returned, the instance is in the store under the
    key of the arguments. *)
Lemma memoized_returned_cached cache k args w i w' :
  formatter k (formatters cache) args w = (Returned i, w') ->
  store_at w' (slot cache k) !! serializerDefault args = Some i.
Proof.
  intros Hrun. memoized_cases Hrun; [done|].
  rewrite lookup_write_store. by rewrite decide_True.
Qed.

(** The invocations of the platform constructor during one call. *)
Lemma memoized_calls cache k args w r w' :
  formatter k (formatters cache) args w = (r, w') ->
  calls w' = calls w ++
    match store_at w (slot cache k) !! serializerDefault args with
    | Some _ => []
    | None => [(k, ctor_args cache k args)]
    end.
Proof.
  intros Hrun. memoized_cases Hrun; rewrite ?Hkey; simpl; by rewrite ?app_nil_r.
Qed.

(** The heap of stores after a call: either it is as before, or the store
    of the kind gained the entry for the key. *)
Lemma memoized_stores cache k args w r w' :
  formatter k (formatters cache) args w = (r, w') ->
  stores w' = stores w \/
  exists i, r = Returned i /\
    store_at w (slot cache k) !! serializerDefault args = None /\
    stores w' = <[slot cache k := <[serializerDefault args := i]> (store_at w (slot cache k))]>
                  (stores w).
Proof.
  intros Hrun. memoized_cases Hrun; [by left | by left |].
  right. eexists. by split_and!.
Qed.

(** No store object other than the one of the kind is touched. *)
Lemma memoized_other_stores cache k args w r w' l :
  formatter k (formatters cache) args w = (r, w') ->
  l <> slot cache k -> stores w' !! l = stores w !! l.
Proof.
  intros Hrun Hl.
  destruct (memoized_stores _ _ _ _ _ _ Hrun) as [->|(i & _ & _ & ->)];
    [done | by rewrite lookup_insert_ne].
Qed.

(** Entries are never removed or overwritten by a call. *)
Lemma memoized_keeps_entries cache k args w r w' l key i :
  formatter k (formatters cache) args w = (r, w') ->
  store_at w l !! key = Some i -> store_at w' l !! key = Some i.
Proof.
  intros Hrun Hi. memoized_cases Hrun; try done.
  rewrite lookup_write_store, store_at_logged.
  case_decide as Hd; [|done]. destruct Hd as [<- <-]. congruence.
Qed.

(** The invariant is kept by every call of a memoized constructor. *)
Lemma memoized_world_ok cache k args w r w' :
  formatter k (formatters cache) args w = (r, w') ->
  world_ok w -> world_ok w'.
Proof.
  intros Hrun [Hb Hu]. memoized_cases Hrun; [by split | by split |].
  split.
  - intros l key i. rewrite lookup_write_store, store_at_logged. simpl.
    case_decide.
    + intros [= <-]. simpl. lia.
    + intros H'%Hb. lia.
  - intros l l' key key' i i'. rewrite !lookup_write_store, !store_at_logged.
    destruct (decide (_ = l /\ _ = key)) as [[<- <-]|H1],
             (decide (_ = l' /\ _ = key')) as [[<- <-]|H2].
    + done.
    + intros [= <-] H3%Hb. simpl. lia.
    + intros H3%Hb [= <-]. simpl. lia.
    + apply Hu.
Qed.


(** C1.  Two calls of a memoized constructor with value-equal argument
    tuples: when the first call returns an instance, the second call
    returns that very instance and leaves the world as the first call left
    it, so it does not invoke the platform constructor; and when the tuple
    was not cached before the first call, the platform constructor is
    invoked exactly once across both calls, namely by the first. *)
Theorem memoized_twice_same_instance cache k args args' w i w1 :
  args' = args ->
  formatter k (formatters cache) args w = (Returned i, w1) ->
  formatter k (formatters cache) args' w1 = (Returned i, w1) /\
  (store_at w (slot cache k) !! serializerDefault args = None ->
   calls w1 = calls w ++ [(k, ctor_args cache k args)]).
Proof.
  intros -> Hfirst. split.
  - by apply memoized_hit, (memoized_returned_cached _ _ _ w).
  - intros Hmiss. rewrite (memoized_calls _ _ _ _ _ _ Hfirst). by rewrite Hmiss.
Qed.





(** C5.  When a call reaches the platform constructor (the key of the tuple
    is not cached) and the constructor raises [e], the memoized constructor
    raises the same [e]; the heap of stores is left as it was, so the store
    of the kind still has no entry under the key.  Conversely every
    exception a memoized constructor raises is the one the platform
    constructor raised for that tuple. *)
Theorem platform_failure_propagates cache k args w :
  (forall e,
      store_at w (slot cache k) !! serializerDefault args = None ->
      platform_throws k (ctor_args cache k args) = Some e ->
      exists w',
        formatter k (formatters cache) args w = (Thrown e, w') /\
        stores w' = stores w /\
        store_at w' (slot cache k) !! serializerDefault args = None) /\
  (forall e w',
      formatter k (formatters cache) args w = (Thrown e, w') ->
      platform_throws k (ctor_args cache k args) = Some e /\
      stores w' = stores w /\
      store_at w' (slot cache k) !! serializerDefault args = None).
Proof.
  split.
  - intros e Hmiss Hp. rewrite memoized_run, Hmiss, Hp. eexists. split; [reflexivity|].
    split; [reflexivity|]. by rewrite store_at_logged.
  - intros e w' Hrun. memoized_cases Hrun. by rewrite store_at_logged.
Qed.

(** C6.  A call of the memoized constructor of kind [k] changes no store
    object other than the one in the slot of [k]; in a container whose seven
    slots hold seven different stores, the six stores of the other kinds are
    therefore unchanged.  The store of [k] only grows: every entry that was
    in any store before the call is still there, with the same instance. *)
Theorem memoized_frame cache k args w r w' :
  formatter k (formatters cache) args w = (r, w') ->
  (forall l, l <> slot cache k -> stores w' !! l = stores w !! l) /\
  (forall k', independent_slots cache -> k' <> k ->
              store_at w' (slot cache k') = store_at w (slot cache k')) /\
  store_at w (slot cache k) ⊆ store_at w' (slot cache k) /\
  (forall l key i, store_at w l !! key = Some i -> store_at w' l !! key = Some i).
Proof.
  intros Hrun. split_and!.
  - intros l. by apply (memoized_other_stores _ _ args _ r).
  - intros k' Hind Hk'. unfold store_at.
    rewrite (memoized_other_stores _ _ _ _ _ _ _ Hrun); [done|].
    by apply independent_slots_ne.
  - apply map_subseteq_spec. intros key i Hi.
    exact (memoized_keeps_entries _ _ _ _ _ _ _ _ _ Hrun Hi).
  - intros l key i Hi. exact (memoized_keeps_entries _ _ _ _ _ _ _ _ _ Hrun Hi).
Qed.

(** C7.  Two containers made by [createIntlCache] share nothing.  After a
    constructor of kind [k] backed by the first container has returned an
    instance for [args], the constructor of the same kind backed by the
    second container finds its own store empty: it invokes the platform
    constructor, and what it returns is a new instance, different from the
    one of the first container. *)
Theorem separate_containers_construct_afresh k args w0 c1 w1 c2 w2 i1 w3 r w4 :
  createIntlCache w0 = (Returned c1, w1) ->
  createIntlCache w1 = (Returned c2, w2) ->
  formatter k (formatters c1) args w2 = (Returned i1, w3) ->
  formatter k (formatters c2) args w3 = (r, w4) ->
  independent_slots c1 /\ independent_slots c2 /\
  (forall k1 k2, slot c1 k1 <> slot c2 k2) /\
  store_at w3 (slot c2 k) = ∅ /\
  calls w4 = calls w3 ++ [(k, ctor_args c2 k args)] /\
  (forall i2, r = Returned i2 ->
              i2 <> i1 /\ inst_id i2 = next_id w3 /\
              store_at w4 (slot c1 k) !! serializerDefault args = Some i1 /\
              store_at w4 (slot c2 k) !! serializerDefault args = Some i2).
Proof.
  intros Hc1 Hc2 Hrun1 Hrun2.
  destruct (createIntlCache_fresh w0) as (c1' & w1' & E1 & Hind1 & Hs1 & Hst1 & _).
  rewrite Hc1 in E1. injection E1 as <- <-.
  destruct (createIntlCache_fresh w1) as (c2' & w2' & E2 & Hind2 & Hs2 & Hst2 & _).
  rewrite Hc2 in E2. injection E2 as <- <-.
  assert (Hdisj : forall k1 k2, slot c1 k1 <> slot c2 k2).
  { intros k1 k2 Heq. destruct (Hs2 k2) as [_ Hfresh]. apply Hfresh.
    rewrite <- Heq. apply elem_of_dom. destruct (Hs1 k1) as [-> _]. done. }
  assert (Hempty3 : store_at w3 (slot c2 k) = ∅).
  { unfold store_at. rewrite (memoized_other_stores _ _ _ _ _ _ _ Hrun1).
    - by destruct (Hs2 k) as [-> _].
    - by apply not_eq_sym. }
  assert (Hid1 : inst_id i1 < next_id w3).
  { assert (store_at w2 (slot c1 k) = ∅) as Hempty1.
    { rewrite Hst2. unfold store_at. by destruct (Hs1 k) as [-> _]. }
    revert Hrun1. rewrite memoized_run, Hempty1, lookup_empty.
    destruct (platform_throws k (ctor_args c1 k args)); [done|].
    intros [= <- <-]. simpl. lia. }
  pose proof (memoized_calls _ _ _ _ _ _ Hrun2) as Hcalls.
  rewrite Hempty3, lookup_empty in Hcalls.
  split_and!; try done.
  intros i2 ->.
  assert (Hid2 : inst_id i2 = next_id w3).
  { revert Hrun2. rewrite memoized_run, Hempty3, lookup_empty.
    destruct (platform_throws k (ctor_args c2 k args)); [done|].
    by intros [= <- _]. }
  split_and!.
  - intros ->. lia.
  - exact Hid2.
  - apply (memoized_keeps_entries _ _ _ _ _ _ _ _ _ Hrun2).
    by apply (memoized_returned_cached _ _ _ w2).
  - by apply (memoized_returned_cached _ _ _ w3).
Qed.

(** C10.  The injected memoized constructors are defaults only.  When the
    fourth argument of [getMessageFormat] is an options object, the
    underlying message formatter is constructed with the first three
    arguments and with an options object whose [formatters] entry is the
    one of the caller, if the caller's options have one (it overrides the
    injected entry, so the memoized constructors of the container are not
    handed over), and the injected entry otherwise; every other option is
    passed on as the caller gave it. *)
Theorem message_formatters_override cache args (opts : object) w :
  nth 3 args VUndefined = VObj opts ->
  NoDup (obj_keys opts) ->
  store_at w (IntlCache.message cache) !! serializerDefault args = None ->
  exists merged r w',
    getMessageFormat (formatters cache) args w = (r, w') /\
    calls w' = calls w ++
      [(Message, [nth 0 args VUndefined; nth 1 args VUndefined; nth 2 args VUndefined;
                  VObj merged])] /\
    (forall i, r = Returned i ->
               inst_args i = [nth 0 args VUndefined; nth 1 args VUndefined;
                              nth 2 args VUndefined; VObj merged]) /\
    obj_lookup "formatters" merged =
      match obj_lookup "formatters" opts with
      | Some f => Some f
      | None => Some (injected_formatters cache)
      end /\
    (forall name, name <> "formatters" -> obj_lookup name merged = obj_lookup name opts).
Proof.
  intros Hopts Hnd Hmiss.
  exists (spread [("formatters", injected_formatters cache)] (VObj opts)).
  assert (Hown : obj_lookup "formatters"
                   (spread [("formatters", injected_formatters cache)] (VObj opts)) =
                 match obj_lookup "formatters" opts with
                 | Some f => Some f
                 | None => Some (injected_formatters cache)
                 end).
  { rewrite spread_lookup by done. by rewrite obj_lookup_singleton. }
  assert (Hother : forall name, name <> "formatters" ->
                     obj_lookup name
                       (spread [("formatters", injected_formatters cache)] (VObj opts)) =
                     obj_lookup name opts).
  { intros name Hname. rewrite spread_lookup by done.
    rewrite obj_lookup_singleton_ne by done. by destruct (obj_lookup name opts). }
  pose proof (memoized_run cache Message args w) as Hrun.
  cbn [slot] in Hrun. rewrite Hmiss in Hrun. unfold ctor_args, or_empty in Hrun.
  rewrite Hopts in Hrun. cbn [truthy] in Hrun.
  destruct (platform_throws Message _) eqn:Hp in Hrun.
  - eexists _, _. split; [exact Hrun|]. by split_and!.
  - eexists _, _. split; [exact Hrun|]. split_and!; try done. by intros i [= <-].
Qed.

(** Without options (a falsy fourth argument) the constructor gets the
    injected entry and nothing else. *)
Lemma message_formatters_default cache args :
  truthy (nth 3 args VUndefined) = false ->
  ctor_args cache Message args =
  [nth 0 args VUndefined; nth 1 args VUndefined; nth 2 args VUndefined;
   VObj [("formatters", injected_formatters cache)]].
Proof. intros H. unfold ctor_args, or_empty. by rewrite H. Qed.

End Memoized.

(** ** Concrete runs *)

Lemma memoized_twice_same_instance_witness :
  exists i w1,
    getNumberFormat (createFormatters never_throws fresh_cache) en fresh_world
    = (Returned i, w1) /\
    getNumberFormat (createFormatters never_throws fresh_cache) en w1 = (Returned i, w1) /\
    calls w1 = calls fresh_world ++ [(Number, en)].
Proof.
  destruct (memoized_returns never_throws fresh_cache Number en fresh_world eq_refl)
    as (i & w1 & Hrun).
  exists i, w1. split; [exact Hrun|].
  destruct (memoized_twice_same_instance never_throws fresh_cache Number en en
              fresh_world i w1 eq_refl Hrun) as [Hsecond Honce].
  split; [exact Hsecond|]. apply Honce. vm_compute. reflexivity.
Defined.


Example shared_instance_run :
  (let* a := getNumberFormat (createFormatters never_throws fresh_cache) en_plain in
   let* b := getNumberFormat (createFormatters never_throws fresh_cache) en_style_undefined in
   let* w := get_world in
   ret (a, b, calls w)) fresh_world
  = (Returned (Instance 0 Number en_plain, Instance 0 Number en_plain,
               [(Number, en_plain)]),
     write_store 2%positive (serializerDefault en_plain) (Instance 0 Number en_plain)
       (logged Number en_plain 1 fresh_world)).
Proof. vm_compute. reflexivity. Qed.

Example independent_instances_run :
  fst ((let* a := getNumberFormat (createFormatters never_throws fresh_cache) en_currency in
        let* b := getNumberFormat (createFormatters never_throws fresh_cache) en_percent in
        let* c := getNumberFormat (createFormatters never_throws fresh_cache) en_currency in
        let* w := get_world in
        ret (a, b, c, calls w)) fresh_world)
  = Returned (Instance 0 Number en_currency, Instance 1 Number en_percent,
              Instance 0 Number en_currency,
              [(Number, en_currency); (Number, en_percent)]).
Proof. vm_compute. reflexivity. Qed.


Lemma platform_failure_propagates_witness :
  exists w',
    getNumberFormat (createFormatters rejects_xx fresh_cache) [VStr "xx"] fresh_world
    = (Thrown (PlatformError "RangeError" "Incorrect locale information provided"), w') /\
    stores w' = stores fresh_world /\
    store_at w' (IntlCache.number fresh_cache) !! serializerDefault [VStr "xx"] = None.
Proof.
  apply (proj1 (platform_failure_propagates rejects_xx fresh_cache Number [VStr "xx"]
                  fresh_world)).
  - vm_compute. reflexivity.
  - reflexivity.
Defined.

Lemma memoized_frame_witness :
  exists r w',
    getNumberFormat (createFormatters never_throws fresh_cache) en fresh_world = (r, w') /\
    store_at w' (IntlCache.dateTime fresh_cache)
    = store_at fresh_world (IntlCache.dateTime fresh_cache) /\
    store_at fresh_world (IntlCache.number fresh_cache)
    ⊆ store_at w' (IntlCache.number fresh_cache).
Proof.
  destruct (getNumberFormat (createFormatters never_throws fresh_cache) en fresh_world)
    as [r w'] eqn:Hrun.
  exists r, w'. split; [reflexivity|].
  destruct (memoized_frame never_throws fresh_cache Number en fresh_world r w' Hrun)
    as (_ & Hothers & Hgrows & _).
  split; [|exact Hgrows].
  apply (Hothers DateTime independent_slots_fresh_cache). discriminate.
Defined.

Lemma separate_containers_construct_afresh_witness :
  exists c1 w1 c2 w2 i1 w3 i2 w4,
    createIntlCache empty_world = (Returned c1, w1) /\
    createIntlCache w1 = (Returned c2, w2) /\
    getNumberFormat (createFormatters never_throws c1) en w2 = (Returned i1, w3) /\
    getNumberFormat (createFormatters never_throws c2) en w3 = (Returned i2, w4) /\
    i2 <> i1 /\
    calls w4 = calls w3 ++ [(Number, en)].
Proof.
  destruct (createIntlCache_fresh empty_world) as (c1 & w1 & Hc1 & _).
  destruct (createIntlCache_fresh w1) as (c2 & w2 & Hc2 & _).
  destruct (memoized_returns never_throws c1 Number en w2 eq_refl) as (i1 & w3 & Hrun1).
  destruct (memoized_returns never_throws c2 Number en w3 eq_refl) as (i2 & w4 & Hrun2).
  exists c1, w1, c2, w2, i1, w3, i2, w4.
  destruct (separate_containers_construct_afresh never_throws Number en empty_world
              c1 w1 c2 w2 i1 w3 (Returned i2) w4 Hc1 Hc2 Hrun1 Hrun2)
    as (_ & _ & _ & _ & Hcalls4 & Hnew).
  destruct (Hnew i2 eq_refl) as (Hne & _).
  by split_and!.
Defined.

Lemma message_formatters_override_witness :
  exists merged r w',
    getMessageFormat (createFormatters never_throws fresh_cache)
      [VStr "Hello"; VStr "en"; VUndefined; VObj own_formatters] fresh_world = (r, w') /\
    calls w' = [(Message, [VStr "Hello"; VStr "en"; VUndefined; VObj merged])] /\
    obj_lookup "formatters" merged =
      Some (VObj [("getNumberFormat", VFun (UserFn "myNumberFormat"))]).
Proof.
  destruct (message_formatters_override never_throws fresh_cache
              [VStr "Hello"; VStr "en"; VUndefined; VObj own_formatters]
              own_formatters fresh_world)
    as (merged & r & w' & Hrun & Hcalls & _ & Hown & _).
  - reflexivity.
  - unfold own_formatters, obj_keys; simpl. apply NoDup_singleton.
  - vm_compute. reflexivity.
  - exists merged, r, w'. split_and!; [exact Hrun | exact Hcalls | exact Hown].
Defined.

(* ===================================================================== *)
(** * Further properties of the module *)
(* ===================================================================== *)

(** ** filterProps: order, repeated keys and composition *)

Lemma obj_set_absent name v (o : object) :
  obj_lookup name o = None -> obj_set name v o = o ++ [(name, v)].
Proof.
  induction o as [|[k x] rest IH]; simpl; [done|].
  destruct (String.eqb k name); [done|]. intros H. by rewrite IH.
Qed.

Lemma filter_fold_app props defaults whitelist filtered :
  NoDup whitelist ->
  (forall n, n ∈ whitelist -> n ∉ obj_keys filtered) ->
  fold_left (filter_step props defaults) whitelist filtered =
  filtered ++ omap (fun n => pair n <$> contributed props defaults n) whitelist.
Proof.
  revert filtered.
  induction whitelist as [|n whitelist IH]; intros filtered Hnd Hnew; simpl.
  - by rewrite app_nil_r.
  - apply NoDup_cons in Hnd as [Hn Hnd].
    rewrite filter_step_contributed.
    destruct (contributed props defaults n) as [v|]; simpl.
    + rewrite obj_set_absent
        by (apply obj_lookup_None_keys, Hnew; left).
      rewrite IH; [by rewrite <- app_assoc | done |].
      intros m Hm. unfold obj_keys. rewrite map_app. simpl.
      intros [Hin | ->%list_elem_of_singleton]%elem_of_app; [|done].
      by apply (Hnew m); [right|].
    + apply IH; [done|]. intros m Hm. apply Hnew. by right.
Qed.

Lemma omap_contributed_selected props defaults whitelist :
  Forall (fun name => inherited name = None /\ integer_like name = false) whitelist ->
  omap (fun n => pair n <$> contributed props defaults n) whitelist =
  omap (fun n => pair n <$> selected props defaults n) whitelist.
Proof.
  induction 1 as [|n whitelist [Hn _] _ IH]; [done|].
  cbn [omap list_omap]. by rewrite IH, (contributed_not_inherited _ _ _ Hn).
Qed.


(** X1.  For a whitelist without repetition, none of whose keys is a name
    that every object inherits or the decimal notation of a natural number,
    the result of [filterProps] is the list of the allowed keys that the
    source or the defaults have, in the order of the whitelist, each with
    its selected value: the order of the properties of the source plays no
    part.  (Properties with integer-like names are excluded because
    JavaScript lists them first, in ascending order, and the model keeps
    the order of definition.) *)
Theorem filterProps_in_whitelist_order (props : object) (whitelist : list string)
    (defaults : option object) :
  NoDup whitelist ->
  Forall (fun name => inherited name = None /\ integer_like name = false) whitelist ->
  filterProps props whitelist defaults =
  omap (fun name => pair name <$> selected props (default [] defaults) name) whitelist.
Proof.
  intros Hnd Hnames. unfold filterProps. cbv zeta.
  rewrite filter_fold_app; [by apply omap_contributed_selected | done |].
  intros n _. apply not_elem_of_nil.
Qed.

Lemma filterProps_in_whitelist_order_witness :
  filterProps [("a", VNum (Int 1)); ("b", VNum (Int 2))] ["c"; "a"]
    (Some [("c", VNum (Int 3))])
  = [("c", VNum (Int 3)); ("a", VNum (Int 1))].
Proof.
  rewrite (filterProps_in_whitelist_order _ ["c"; "a"]); [reflexivity | |].
  - apply (bool_decide_unpack (NoDup _)). vm_compute. exact I.
  - repeat constructor.
Defined.



(** X3.  The result of [filterProps] is a well-formed object whatever the
    arguments: no key occurs twice in it, also when the whitelist repeats a
    key or when the source or the defaults are given with a repeated key;
    and it has at most as many properties as the whitelist has entries. *)
Theorem filterProps_well_formed (props : object) (whitelist : list string)
    (defaults : option object) :
  NoDup (obj_keys (filterProps props whitelist defaults)) /\
  length (filterProps props whitelist defaults) <= length whitelist.
Proof.
  split; [unfold filterProps; apply filter_fold_NoDup, NoDup_nil_2|].
  unfold filterProps. cbv zeta.
  enough (H : forall filtered,
             length (fold_left (filter_step props (default [] defaults)) whitelist filtered)
             <= length filtered + length whitelist) by apply (H []).
  induction whitelist as [|n whitelist IH]; intros filtered; simpl; [lia|].
  etrans; [apply IH|].
  enough (length (filter_step props (default [] defaults) filtered n) <= S (length filtered))
    by lia.
  assert (Hset : forall v, length (obj_set n v filtered) <= S (length filtered)).
  { intros v. rewrite <- !(length_map fst). change (map fst) with obj_keys.
    rewrite obj_keys_set. destruct (obj_has n filtered); [lia|].
    rewrite length_app. simpl. lia. }
  rewrite filter_step_contributed. destruct (contributed _ _ n); [apply Hset | lia].
Qed.

(** ** defaultErrorHandler and DEFAULT_INTL_CONFIG *)

Lemma defaultErrorHandler_run e w :
  defaultErrorHandler e w =
  if bool_decide (NODE_ENV w = Some "production") then (Returned tt, w)
  else (Returned tt, World (stores w) (next_id w) (calls w) (console w ++ [e]) (NODE_ENV w)).
Proof.
  unfold defaultErrorHandler, bind, get_world.
  by destruct (bool_decide (NODE_ENV w = Some "production")).
Qed.

Lemma logs_defaultErrorHandler e w :
  exists w', defaultErrorHandler e w = (Returned tt, w') /\
    logs w w' (if bool_decide (NODE_ENV w = Some "production") then [] else [e]).
Proof.
  rewrite defaultErrorHandler_run.
  destruct (bool_decide (NODE_ENV w = Some "production")); eexists; split; try done.
  unfold logs. by rewrite app_nil_r.
Qed.

(** X4.  [defaultErrorHandler] never throws.  In a production environment
    it does nothing at all: the world after it is the world before it.  In
    any other environment, an unset one included, it writes the error to
    the console, once, after what was written before, and changes nothing
    else: no store, no platform state, not the environment. *)
Theorem defaultErrorHandler_silent_in_production (e : error) (w : world) :
  exists w',
    defaultErrorHandler e w = (Returned tt, w') /\
    (NODE_ENV w = Some "production" -> w' = w) /\
    (NODE_ENV w <> Some "production" -> logs w w' [e]).
Proof.
  rewrite defaultErrorHandler_run. case_bool_decide as Henv.
  - exists w. by split_and!.
  - eexists. split_and!; done.
Qed.

(** X5.  With the default configuration, whose format tables are empty and
    whose error callback is [defaultErrorHandler], every lookup of a named
    format returns [undefined] and never throws; what it reports is one
    unsupported-formatter error for the kind and the name, written to the
    console outside production and dropped in production.  The kind is a
    key of the format tables ([keyof CustomFormats]), hence not a name that
    every object inherits. *)
Theorem default_config_has_no_named_format (type name : string) (w : world) :
  inherited type = None ->
  Forall
    (fun table =>
       exists w',
         getNamedFormat table type name (IntlConfig.onError DEFAULT_INTL_CONFIG) w
         = (Returned VUndefined, w') /\
         logs w w' (if bool_decide (NODE_ENV w = Some "production") then []
                    else [unsupported type name]))
    [IntlConfig.formats DEFAULT_INTL_CONFIG; IntlConfig.defaultFormats DEFAULT_INTL_CONFIG].
Proof.
  intros Hi.
  destruct (logs_defaultErrorHandler (unsupported type name) w) as (w' & Hrun & Hlogs).
  assert (Hempty : getNamedFormat (VObj []) type name defaultErrorHandler w
                   = (Returned VUndefined, w')).
  { rewrite getNamedFormat_run, registered_no_kind by done.
    cbn [truthy]. unfold bind. by rewrite Hrun. }
  repeat constructor; by exists w'.
Qed.

Lemma default_config_has_no_named_format_witness :
  Forall
    (fun table =>
       exists w',
         getNamedFormat table "date" "short" defaultErrorHandler empty_world
         = (Returned VUndefined, w') /\
         logs empty_world w' [unsupported "date" "short"])
    [VObj []; VObj []].
Proof.
  exact (default_config_has_no_named_format "date" "short" empty_world eq_refl).
Defined.

(** ** getNamedFormat: what can come out of it *)

Lemma reported_outcomes (onError : error -> M unit) (e : error) w (r : result value) w' :
  (onError e ;;; ret VUndefined) w = (r, w') ->
  (r = Returned VUndefined /\ onError e w = (Returned tt, w')) \/
  (exists e', r = Thrown e' /\ onError e w = (Thrown e', w')).
Proof.
  unfold bind. destruct (onError e w) as [[[]|e'] w1]; intros [= <- <-]; eauto.
Qed.

(** X6.  The outcomes of [getNamedFormat] on a plain format table.  A
    value it returns is either truthy, and then it is the property that the
    formats of the kind have under the name, their own or an inherited one,
    and the world is as before (the callback was not called); or it is
    [undefined], and then the callback was called with the
    unsupported-formatter error and returned.  It never returns [null],
    [false], [0] or the empty string.  An exception it throws is the one
    the callback threw, with the world as the callback left it. *)
Theorem getNamedFormat_outcomes (formats : value) (type name : string)
    (onError : error -> M unit) (w : world) (r : result value) (w' : world) :
  plain_table formats type ->
  getNamedFormat formats type name onError w = (r, w') ->
  (exists table fmts,
      formats = VObj table /\ obj_lookup type table = Some (VObj fmts) /\
      r = Returned (obj_read name fmts) /\ truthy (obj_read name fmts) = true /\
      w' = w) \/
  (r = Returned VUndefined /\ onError (unsupported type name) w = (Returned tt, w')) \/
  (exists e, r = Thrown e /\ onError (unsupported type name) w = (Thrown e, w')).
Proof.
  intros Hplain. rewrite getNamedFormat_run.
  destruct Hplain as [Hf | (table & -> & Hkind)].
  - assert (registered formats type name = VUndefined) as ->.
    { unfold registered, and_then. by rewrite Hf, Hf. }
    intros Hrun. right. by apply reported_outcomes.
  - destruct (obj_lookup type table) as [v|] eqn:Ht.
    + destruct Hkind as [Hv | [fmts ->]].
      * assert (registered (VObj table) type name = VUndefined) as ->.
        { unfold registered, and_then. cbn [truthy get_prop].
          by rewrite (obj_read_lookup _ _ _ Ht), Hv. }
        intros Hrun. right. by apply reported_outcomes.
      * rewrite (registered_object _ _ _ _ Ht).
        destruct (truthy (obj_read name fmts)) eqn:Hread.
        -- intros [= <- <-]. left. exists table, fmts.
           repeat split; first [assumption | reflexivity].
        -- intros Hrun. right. by apply reported_outcomes.
    + rewrite (registered_no_kind _ _ _ Ht Hkind).
      intros Hrun. right. by apply reported_outcomes.
Qed.

Lemma getNamedFormat_outcomes_witness :
  (exists table fmts,
      VObj [("number", VObj [])] = VObj table /\
      obj_lookup "number" table = Some (VObj fmts) /\
      Returned (VFun (Builtin "Object")) = Returned (obj_read "constructor" fmts) /\
      truthy (obj_read "constructor" fmts) = true /\
      empty_world = empty_world) \/
  (Returned (VFun (Builtin "Object")) = Returned VUndefined /\
   defaultErrorHandler (unsupported "number" "constructor") empty_world
     = (Returned tt, empty_world)) \/
  (exists e, Returned (VFun (Builtin "Object")) = Thrown e /\
     defaultErrorHandler (unsupported "number" "constructor") empty_world
       = (Thrown e, empty_world)).
Proof.
  apply (getNamedFormat_outcomes (VObj [("number", VObj [])]) "number" "constructor"
           defaultErrorHandler empty_world).
  - right. exists [("number", VObj [])]. split; [reflexivity|]. right. by exists [].
  - reflexivity.
Defined.

(** X7.  A format table that is itself falsy ([undefined] or [null], as
    when the configuration has none), and a table whose entry for the kind
    is falsy, hold no format: [getNamedFormat] reads no property of them
    and behaves as one call of the callback on the unsupported-formatter
    error followed by the return of [undefined]. *)
Theorem getNamedFormat_falsy_table (formats : value) (type name : string)
    (onError : error -> M unit) :
  truthy formats = false \/
  (exists table v,
      formats = VObj table /\ obj_lookup type table = Some v /\ truthy v = false) ->
  getNamedFormat formats type name onError =
  (onError (unsupported type name) ;;; ret VUndefined).
Proof.
  intros [Hf | (table & v & -> & Ht & Hv)]; rewrite getNamedFormat_run.
  - unfold registered, and_then. by rewrite Hf, Hf.
  - unfold registered, and_then. cbn [truthy get_prop].
    by rewrite (obj_read_lookup _ _ _ Ht), Hv.
Qed.

Lemma getNamedFormat_falsy_table_witness :
  getNamedFormat VUndefined "date" "short" defaultErrorHandler empty_world
  = (Returned VUndefined,
     World ∅ 0 [] [UnsupportedFormatterError "No date format named: short"] None) /\
  getNamedFormat (VObj [("date", VNull)]) "date" "short" defaultErrorHandler empty_world
  = (Returned VUndefined,
     World ∅ 0 [] [UnsupportedFormatterError "No date format named: short"] None).
Proof.
  split.
  - rewrite (getNamedFormat_falsy_table VUndefined "date" "short" defaultErrorHandler);
      [reflexivity | left; reflexivity].
  - rewrite (getNamedFormat_falsy_table (VObj [("date", VNull)]) "date" "short"
               defaultErrorHandler); [reflexivity|].
    right. exists [("date", VNull)], VNull. split_and!; reflexivity.
Defined.

(** ** createIntlCache: what a new container adds to the heap *)

Lemma heap_extends_refl w : heap_extends 0 w w.
Proof. by split_and!. Qed.

Lemma new_store_extends n w0 w l w' :
  heap_extends n w0 w ->
  new_store w = (Returned l, w') ->
  heap_extends (S n) w0 w'.
Proof.
  intros (Hsize & Hsub & Hold & Hc & He) Hnew.
  assert (Hfresh : l ∉ dom (stores w)).
  { injection Hnew as <- _. apply is_fresh. }
  assert (Hstores : stores w' = <[l := ∅]> (stores w)).
  { by injection Hnew as <- <-. }
  split_and!.
  - rewrite Hstores, map_size_insert_None by (by apply not_elem_of_dom). simpl. lia.
  - rewrite Hstores, dom_insert_L. etrans; [exact Hsub | apply union_subseteq_r].
  - intros l' Hl'. rewrite Hstores, lookup_insert_ne; [by apply Hold|].
    intros ->. by apply Hfresh, Hsub.
  - by injection Hnew as _ <-.
  - by injection Hnew as _ <-.
Qed.

Lemma createIntlCache_extends w cache w' :
  createIntlCache w = (Returned cache, w') -> heap_extends 7 w w'.
Proof.
  unfold createIntlCache, bind.
  pose proof (heap_extends_refl w) as H0.
  repeat match goal with
         | H : heap_extends _ w ?w1 |- context [new_store ?w1] =>
             let E := fresh "E" in
             let r := fresh "r" in
             let w2 := fresh "w" in
             destruct (new_store w1) as [r w2] eqn:E;
             assert (exists l, r = Returned l) as [? ->] by (injection E as <- _; eauto);
             pose proof (new_store_extends _ _ _ _ _ H E); clear H E
         end.
  by intros [= <- <-].
Qed.

Lemma coherent_empty cache w :
  (forall k, store_at w (slot cache k) = ∅) -> coherent cache w.
Proof. intros He k key i. by rewrite He, lookup_empty. Qed.

Lemma store_at_empty w l : stores w !! l = Some ∅ -> store_at w l = ∅.
Proof. unfold store_at. by intros ->. Qed.

(** X8.  [createIntlCache] never throws.  It returns a container of seven
    pairwise different store objects, none of which existed before and each
    of which is empty; the heap has exactly seven store objects more, every
    store that existed is there unchanged, and the platform state, the
    console and the environment are untouched.  The new container is
    coherent. *)
Theorem createIntlCache_allocates (w : world) :
  exists cache w',
    createIntlCache w = (Returned cache, w') /\
    independent_slots cache /\
    (forall k, store_at w' (slot cache k) = ∅ /\ slot cache k ∉ dom (stores w)) /\
    size (stores w') = 7 + size (stores w) /\
    (forall l, l ∈ dom (stores w) -> stores w' !! l = stores w !! l) /\
    next_id w' = next_id w /\ calls w' = calls w /\
    console w' = console w /\ NODE_ENV w' = NODE_ENV w /\
    coherent cache w'.
Proof.
  destruct (createIntlCache_fresh w) as (cache & w' & Hrun & Hind & Hnew & _ & Hn & Hc).
  destruct (createIntlCache_extends _ _ _ Hrun) as (Hsize & _ & Hold & Hcon & Henv).
  exists cache, w'. split_and!; try done.
  - intros k. destruct (Hnew k) as [He Hk]. split; [by apply store_at_empty | done].
  - apply coherent_empty. intros k. by apply store_at_empty, Hnew.
Qed.

(** ** The memoized constructors: cold start, growth, coherence, sharing *)



Section MemoizedFurther.
Variable platform_throws : Kind -> list value -> option error.
Implicit Types (cache : IntlCache.t) (k : Kind) (args : list value) (w : world).

Abbreviation formatters := (createFormatters platform_throws).

Lemma call_all_keeps_entries cache k tuples w r w' l key i :
  call_all (formatter k (formatters cache)) tuples w = (r, w') ->
  store_at w l !! key = Some i -> store_at w' l !! key = Some i.
Proof.
  revert w r. induction tuples as [|args rest IH]; intros w r; simpl.
  - by intros [= <- <-].
  - unfold bind at 1.
    destruct (formatter k (formatters cache) args w) as [[i0|e] w1] eqn:E1.
    + unfold bind.
      destruct (call_all (formatter k (formatters cache)) rest w1) as [[others|e] w2] eqn:E2;
        intros [= <- <-] Hi; eapply IH; eauto using memoized_keeps_entries.
    + intros [= <- <-]. eauto using memoized_keeps_entries.
Qed.

Lemma call_all_cached cache k tuples w instances w' :
  call_all (formatter k (formatters cache)) tuples w = (Returned instances, w') ->
  Forall2 (fun args i => store_at w' (slot cache k) !! serializerDefault args = Some i)
    tuples instances.
Proof.
  revert w instances. induction tuples as [|args rest IH]; intros w instances; simpl.
  - intros [= <- <-]. constructor.
  - unfold bind at 1.
    destruct (formatter k (formatters cache) args w) as [[i0|e] w1] eqn:E1; [|done].
    unfold bind.
    destruct (call_all (formatter k (formatters cache)) rest w1) as [[others|e] w2] eqn:E2;
      [|done].
    intros [= <- <-]. constructor; [|by eapply IH].
    eapply call_all_keeps_entries; [exact E2|].
    by eapply memoized_returned_cached.
Qed.

Lemma call_all_hits cache k tuples instances w :
  Forall2 (fun args i => store_at w (slot cache k) !! serializerDefault args = Some i)
    tuples instances ->
  call_all (formatter k (formatters cache)) tuples w = (Returned instances, w).
Proof.
  induction 1 as [|args i rest others Hi _ IH]; simpl; [done|].
  unfold bind at 1. rewrite (memoized_hit _ _ _ _ _ _ Hi).
  unfold bind. by rewrite IH.
Qed.

(** X10.  [createFormatters()] without a container makes one of its own:
    each such call adds seven store objects to the heap, leaves every
    existing store as it was, and invokes no platform constructor.  The
    constructors it returns start cold: whatever other containers hold, the
    first call of any of them, for any argument tuple, invokes the platform
    constructor of its kind. *)
Theorem createFormatters_default_starts_cold (w : world) :
  exists cache w',
    createFormatters_default platform_throws w = (Returned (formatters cache), w') /\
    size (stores w') = 7 + size (stores w) /\
    (forall l, l ∈ dom (stores w) -> stores w' !! l = stores w !! l) /\
    calls w' = calls w /\
    forall k args r w'',
      formatter k (formatters cache) args w' = (r, w'') ->
      calls w'' = calls w' ++ [(k, ctor_args cache k args)].
Proof.
  destruct (createIntlCache_fresh w) as (cache & w' & Hrun & _ & Hnew & _ & _ & Hc).
  destruct (createIntlCache_extends _ _ _ Hrun) as (Hsize & _ & Hold & _ & _).
  exists cache, w'. split_and!; try done.
  - unfold createFormatters_default, bind. by rewrite Hrun.
  - intros k args r w'' Hcall.
    rewrite (memoized_calls _ _ _ _ _ _ _ Hcall).
    destruct (Hnew k) as [He _]. by rewrite (store_at_empty _ _ He), lookup_empty.
Qed.

(** X11.  The store of a kind grows by exactly one entry on a call of its
    memoized constructor when the key of the arguments was not cached and
    the platform constructor returned; on a hit, and on a miss whose
    construction failed, it has as many entries as before.  So the number
    of entries never goes down, and it is the number of distinct keys whose
    construction succeeded. *)
Theorem memoized_store_growth cache k args w r w' :
  formatter k (formatters cache) args w = (r, w') ->
  size (store_at w' (slot cache k)) =
    size (store_at w (slot cache k)) +
    match store_at w (slot cache k) !! serializerDefault args, r with
    | None, Returned _ => 1
    | _, _ => 0
    end.
Proof.
  intros Hrun.
  rewrite memoized_run in Hrun. cbv zeta in Hrun.
  destruct (store_at w (slot cache k) !! serializerDefault args) as [i|] eqn:Hkey.
  - injection Hrun as <- <-. lia.
  - destruct (platform_throws k (ctor_args cache k args)); injection Hrun as <- <-.
    + rewrite store_at_logged. lia.
    + rewrite store_at_write_store, decide_True by done.
      rewrite store_at_logged, map_size_insert_None by done. lia.
Qed.


(** X13.  The constructors of one container do not share entries across
    kinds.  When the seven stores of the container are different objects,
    a tuple that one constructor has just cached is still unknown to the
    constructor of another kind: called with the same tuple, it invokes the
    platform constructor of its own kind, and what it returns is an
    instance of its own kind, different from the first. *)
Theorem kinds_do_not_share cache k k' args w i w1 r w2 :
  independent_slots cache -> k <> k' -> world_ok w ->
  store_at w (slot cache k') !! serializerDefault args = None ->
  formatter k (formatters cache) args w = (Returned i, w1) ->
  formatter k' (formatters cache) args w1 = (r, w2) ->
  calls w2 = calls w1 ++ [(k', ctor_args cache k' args)] /\
  forall i', r = Returned i' -> inst_kind i' = k' /\ i' <> i.
Proof.
  intros Hind Hne Hok Hmiss Hfirst Hsecond.
  assert (Hslot : slot cache k' <> slot cache k) by (by apply independent_slots_ne).
  assert (Hmiss1 : store_at w1 (slot cache k') !! serializerDefault args = None).
  { unfold store_at in *.
    by rewrite (memoized_other_stores _ _ _ _ _ _ _ _ Hfirst Hslot). }
  split.
  - by rewrite (memoized_calls _ _ _ _ _ _ _ Hsecond), Hmiss1.
  - intros i' ->.
    pose proof (memoized_world_ok _ _ _ _ _ _ _ Hfirst Hok) as [Hb1 _].
    pose proof (memoized_returned_cached _ _ _ _ _ _ _ Hfirst) as Hi.
    apply Hb1 in Hi.
    rewrite memoized_run, Hmiss1 in Hsecond. cbv zeta in Hsecond.
    destruct (platform_throws k' _); [done|]. injection Hsecond as <- _.
    split; [done|]. intros <-. simpl in Hi. lia.
Qed.

(** X14.  Coherence is an invariant of a container whose seven stores are
    different objects: every call of a memoized constructor keeps it, and
    under it a returned instance is always an instance of the kind of the
    constructor, built by the platform from the constructor arguments of a
    tuple that has the key of the tuple given, be the call a hit or a
    miss. *)
Theorem memoized_coherent cache k args w r w' :
  independent_slots cache -> coherent cache w ->
  formatter k (formatters cache) args w = (r, w') ->
  coherent cache w' /\
  forall i, r = Returned i ->
    inst_kind i = k /\
    exists args', serializerDefault args' = serializerDefault args /\
                  inst_args i = ctor_args cache k args'.
Proof.
  intros Hind Hco Hrun.
  rewrite memoized_run in Hrun. cbv zeta in Hrun.
  destruct (store_at w (slot cache k) !! serializerDefault args) as [i0|] eqn:Hkey.
  - injection Hrun as <- <-. split; [done|]. intros i [= <-].
    destruct (Hco _ _ _ Hkey) as (Hk & args' & Hkey' & Hargs). eauto.
  - destruct (platform_throws k (ctor_args cache k args)); injection Hrun as <- <-.
    + split; [|done]. intros k0 key i. rewrite store_at_logged. apply Hco.
    + split; [|intros i [= <-]; eauto].
      intros k0 key i. rewrite lookup_write_store, store_at_logged.
      case_decide as Hd; [|apply Hco].
      destruct Hd as [Hs <-]. intros [= <-]. simpl.
      assert (k0 = k) as ->.
      { destruct (decide (k0 = k)) as [|Hne]; [done|].
        by destruct (independent_slots_ne _ _ _ Hind Hne). }
      eauto.
Qed.

(** X15.  A second pass is served from the cache.  When a client has called
    one memoized constructor on each tuple of a list in turn and every call
    returned, calling it again on the same list returns the same instances,
    in the same order, and leaves the world as it was: no platform
    constructor is invoked and no store changes. *)
Theorem second_pass_is_all_hits cache k (tuples : list (list value)) w
    (instances : list instance) w1 :
  call_all (formatter k (formatters cache)) tuples w = (Returned instances, w1) ->
  call_all (formatter k (formatters cache)) tuples w1 = (Returned instances, w1).
Proof. intros Hrun. by eapply call_all_hits, call_all_cached. Qed.

(** X17.  Without options the message constructor gets the collaborators
    of its own container.  When the fourth argument of [getMessageFormat]
    is absent or falsy and the tuple is not cached, the platform
    constructor is invoked once, with the message, the locales and the
    formats given and with an options object that has the single entry
    [formatters]: the memoized number, date-time and plural-rules
    constructors over the stores of this very container. *)
Theorem message_formatters_injected cache args w :
  truthy (nth 3 args VUndefined) = false ->
  store_at w (IntlCache.message cache) !! serializerDefault args = None ->
  exists r w',
    getMessageFormat (formatters cache) args w = (r, w') /\
    calls w' = calls w ++
      [(Message,
        [nth 0 args VUndefined; nth 1 args VUndefined; nth 2 args VUndefined;
         VObj [("formatters",
                VObj [("getNumberFormat", VFun (MemoizedCtor Number (slot cache Number)));
                      ("getDateTimeFormat",
                       VFun (MemoizedCtor DateTime (slot cache DateTime)));
                      ("getPluralRules",
                       VFun (MemoizedCtor PluralRules (slot cache PluralRules)))])]])].
Proof.
  intros Hopts Hmiss.
  destruct (formatter Message (formatters cache) args w) as [r w'] eqn:Hrun.
  exists r, w'. split; [exact Hrun|].
  rewrite (memoized_calls _ _ _ _ _ _ _ Hrun). cbn [slot]. rewrite Hmiss.
  by rewrite (message_formatters_default _ _ Hopts).
Qed.

End MemoizedFurther.

(** X16.  The entries belong to the container, not to the constructors.
    Two sets of constructors made over one container, at different times
    and even over platforms that behave differently, share its entries: an
    instance that a constructor of the first set returned is returned by
    the constructor of the same kind of the second set for the same tuple,
    without any invocation of the second platform. *)
Theorem formatters_over_one_container_share
    (platform_throws platform_throws' : Kind -> list value -> option error)
    (cache : IntlCache.t) (k : Kind) (args : list value) (w : world) (i : instance)
    (w1 : world) :
  formatter k (createFormatters platform_throws cache) args w = (Returned i, w1) ->
  formatter k (createFormatters platform_throws' cache) args w1 = (Returned i, w1).
Proof.
  intros Hrun. apply memoized_hit.
  exact (memoized_returned_cached _ _ _ _ _ _ _ Hrun).
Qed.

(** ** Concrete runs of the further properties *)

Lemma memoized_store_growth_witness :
  exists i w1,
    getNumberFormat (createFormatters never_throws fresh_cache) en fresh_world
    = (Returned i, w1) /\
    size (store_at w1 (slot fresh_cache Number)) = 1.
Proof.
  destruct (memoized_returns never_throws fresh_cache Number en fresh_world eq_refl)
    as (i & w1 & Hrun).
  exists i, w1. split; [exact Hrun|].
  rewrite (memoized_store_growth never_throws fresh_cache Number en fresh_world
             (Returned i) w1 Hrun).
  vm_compute. reflexivity.
Defined.


Lemma kinds_do_not_share_witness :
  exists i w1 r w2,
    getNumberFormat (createFormatters never_throws fresh_cache) en fresh_world
    = (Returned i, w1) /\
    getDateTimeFormat (createFormatters never_throws fresh_cache) en w1 = (r, w2) /\
    calls w2 = calls w1 ++ [(DateTime, en)] /\
    forall i', r = Returned i' -> inst_kind i' = DateTime /\ i' <> i.
Proof.
  destruct (memoized_returns never_throws fresh_cache Number en fresh_world eq_refl)
    as (i & w1 & Hrun).
  destruct (getDateTimeFormat (createFormatters never_throws fresh_cache) en w1)
    as [r w2] eqn:Hsecond.
  exists i, w1, r, w2. split; [exact Hrun|]. split; [exact Hsecond|].
  apply (kinds_do_not_share never_throws fresh_cache Number DateTime en fresh_world
           i w1 r w2 independent_slots_fresh_cache).
  - discriminate.
  - exact world_ok_fresh_world.
  - vm_compute. reflexivity.
  - exact Hrun.
  - exact Hsecond.
Defined.

Lemma coherent_fresh_world : coherent fresh_cache fresh_world.
Proof. apply coherent_empty. intros k. by destruct k. Qed.

Lemma memoized_coherent_witness :
  exists i w1,
    getNumberFormat (createFormatters never_throws fresh_cache) en_currency fresh_world
    = (Returned i, w1) /\
    coherent fresh_cache w1 /\ inst_kind i = Number.
Proof.
  destruct (memoized_returns never_throws fresh_cache Number en_currency fresh_world
              eq_refl) as (i & w1 & Hrun).
  exists i, w1. split; [exact Hrun|].
  destruct (memoized_coherent never_throws fresh_cache Number en_currency fresh_world
              (Returned i) w1 independent_slots_fresh_cache coherent_fresh_world Hrun)
    as [Hco Hi].
  split; [exact Hco|]. by destruct (Hi i eq_refl).
Defined.

Lemma second_pass_is_all_hits_witness :
  exists instances w1,
    call_all (getNumberFormat (createFormatters never_throws fresh_cache))
      [en_currency; en_percent; en_currency] fresh_world
    = (Returned instances, w1) /\
    call_all (getNumberFormat (createFormatters never_throws fresh_cache))
      [en_currency; en_percent; en_currency] w1
    = (Returned instances, w1).
Proof.
  destruct (call_all (getNumberFormat (createFormatters never_throws fresh_cache))
              [en_currency; en_percent; en_currency] fresh_world) as [r w1] eqn:Hrun.
  assert (exists instances, r = Returned instances) as [instances ->].
  { revert Hrun. vm_compute. intros [= <- _]. eauto. }
  exists instances, w1. split; [reflexivity|].
  exact (second_pass_is_all_hits never_throws fresh_cache Number
           [en_currency; en_percent; en_currency] fresh_world instances w1 Hrun).
Defined.

Lemma formatters_over_one_container_share_witness :
  exists i w1,
    getNumberFormat (createFormatters never_throws fresh_cache) [VStr "xx"] fresh_world
    = (Returned i, w1) /\
    getNumberFormat (createFormatters rejects_xx fresh_cache) [VStr "xx"] w1
    = (Returned i, w1).
Proof.
  destruct (memoized_returns never_throws fresh_cache Number [VStr "xx"] fresh_world
              eq_refl) as (i & w1 & Hrun).
  exists i, w1. split; [exact Hrun|].
  exact (formatters_over_one_container_share never_throws rejects_xx fresh_cache Number
           [VStr "xx"] fresh_world i w1 Hrun).
Defined.

Lemma message_formatters_injected_witness :
  exists r w',
    getMessageFormat (createFormatters never_throws fresh_cache)
      [VStr "hi"; VStr "en"] fresh_world = (r, w') /\
    calls w' =
      [(Message,
        [VStr "hi"; VStr "en"; VUndefined;
         VObj [("formatters",
                VObj [("getNumberFormat", VFun (MemoizedCtor Number 2%positive));
                      ("getDateTimeFormat", VFun (MemoizedCtor DateTime 1%positive));
                      ("getPluralRules", VFun (MemoizedCtor PluralRules 5%positive))])]])].
Proof.
  apply (message_formatters_injected never_throws fresh_cache [VStr "hi"; VStr "en"]
           fresh_world).
  - reflexivity.
  - vm_compute. reflexivity.
Defined.
